(** * The GATK/Python FIFO handshake (gatktool/tool.py)

    A shallow embedding of [tool.py]: the two module globals [_ackFIFO] and
    [_dataFIFO], the classes [AckFIFO] and [DataFIFO], the functions GATK
    calls, and the part of the Python platform they rely on (named pipes,
    text files opened with [os.fdopen], [sys.excepthook]). *)

From Stdlib Require Import String Ascii List Lia.
From stdpp Require Import base option gmap strings.
Import ListNotations.

Local Open Scope string_scope.
Local Open Scope list_scope.

(** ** Platform model *)

Module Py.

(** The exceptions this module can meet.  [Exception n] stands for any
    other exception class, named [n], raised by command code. *)
Inductive PyExn : Type :=
| AssertionError
| AttributeError
| FileNotFoundError
| Exception (cls : string).

#[global] Instance PyExn_eq_dec : EqDecision PyExn.
Proof. solve_decision. Defined.

(** Flags given to [os.open]. *)
Inductive OFlag : Type := O_RDONLY | O_WRONLY.

(** What [sys.excepthook] is bound to: the interpreter's own handler
    [sys.__excepthook__], or this module's [gatkExceptionHook]. *)
Inductive Hook : Type := HookDefault | HookGatk.

#[global] Instance Hook_eq_dec : EqDecision Hook.
Proof. solve_decision. Defined.

(** A named pipe: the characters written on it and not yet read, in
    order, and whether its writing end has been closed.  The stream is
    taken to be ASCII text, for which decoding and encoding are the
    identity; what a reader's decoder has already pulled from the pipe
    and not yet returned counts as unread.  The flag is the one the host
    sets when it closes its end: on a data pipe that is the writing end,
    on the ack pipe it is read as the host having gone (see [host_gone]). *)
Record Pipe : Type := { unread : string; writerClosed : bool }.

Definition emptyPipe : Pipe := {| unread := EmptyString; writerClosed := false |}.

(** File descriptor returned by [os.open]. *)
Record FileDesc : Type := { fd_path : string; fd_flags : OFlag }.

(** Text file object returned by [os.fdopen(fd, 'w')]: it holds the text
    written and not yet flushed. *)
Record TextWriter : Type := { w_path : string; w_pending : string }.

(** Text file object returned by [os.fdopen(fd, 'r')]. *)
Record TextReader : Type := { r_path : string }.

(** Observable actions, oldest first in a trace. *)
Inductive Event : Type :=
| EvOpen (path : string) (flags : OFlag)
| EvWrite (path : string) (text : string)
| EvFlush (path : string) (bytes : string)
| EvReadline (path : string) (line : string)
| EvClose (path : string)
| EvSetExcepthook (h : Hook)
| EvDefaultExcepthook (exceptionType : PyExn) (value : string)
                      (traceback : list string).

End Py.
Import Py.

(** ** The two classes, as data *)

(** [class AckFIFO]: fields [ackFIFOName] and [fileWriter]; [fileWriter]
    is [None] after [close]. *)
Record AckFIFO : Type := { ackFIFOName : string; fileWriter : option TextWriter }.

(** [class DataFIFO]: fields [dataFIFOName] and [fileReader]. *)
Record DataFIFO : Type := { dataFIFOName : string; fileReader : option TextReader }.

(** ** Process state *)

(** The named pipes of the file system, the module globals, the binding
    of [sys.excepthook], and the trace of actions so far. *)
Record World : Type := {
  fs : gmap string Pipe;
  _ackFIFO : option AckFIFO;
  _dataFIFO : option DataFIFO;
  excepthook : Hook;
  trace : list Event
}.

Definition pipe_at (m : gmap string Pipe) (path : string) : Pipe :=
  default emptyPipe (m !! path).

Definition with_fs (m : gmap string Pipe) (w : World) : World :=
  {| fs := m; _ackFIFO := _ackFIFO w; _dataFIFO := _dataFIFO w;
     excepthook := excepthook w; trace := trace w |}.

Definition with_ackFIFO (g : option AckFIFO) (w : World) : World :=
  {| fs := fs w; _ackFIFO := g; _dataFIFO := _dataFIFO w;
     excepthook := excepthook w; trace := trace w |}.

Definition with_dataFIFO (g : option DataFIFO) (w : World) : World :=
  {| fs := fs w; _ackFIFO := _ackFIFO w; _dataFIFO := g;
     excepthook := excepthook w; trace := trace w |}.

Definition with_excepthook (h : Hook) (w : World) : World :=
  {| fs := fs w; _ackFIFO := _ackFIFO w; _dataFIFO := _dataFIFO w;
     excepthook := h; trace := trace w |}.

Definition log (ev : Event) (w : World) : World :=
  {| fs := fs w; _ackFIFO := _ackFIFO w; _dataFIFO := _dataFIFO w;
     excepthook := excepthook w; trace := trace w ++ [ev] |}.

(** ** Computations: state, exceptions, blocking *)

(** A call returns a value, raises (the state keeps what was done before
    the raise), or blocks on a pipe waiting for the other side. *)
Inductive Outcome (A : Type) : Type :=
| Return (a : A) (w : World)
| Raise (e : PyExn) (w : World)
| Blocked (w : World).
Arguments Return {A} a w.
Arguments Raise {A} e w.
Arguments Blocked {A} w.

Definition M (A : Type) : Type := World -> Outcome A.

Definition ret {A} (a : A) : M A := fun w => Return a w.

Definition bind {A B} (m : M A) (k : A -> M B) : M B :=
  fun w => match m w with
           | Return a w' => k a w'
           | Raise e w' => Raise e w'
           | Blocked w' => Blocked w'
           end.

Definition raise {A} (e : PyExn) : M A := fun w => Raise e w.

Notation "'let*' x ':=' m 'in' k" := (bind m (fun x => k))
  (at level 10, x name, m at level 100, k at level 200).

Definition final {A} (o : Outcome A) : World :=
  match o with Return _ w | Raise _ w | Blocked w => w end.

(** [o != None], for the objects of this module, which define no
    comparison of their own. *)
Definition not_None {A} (o : option A) : bool :=
  match o with Some _ => true | None => false end.

(** [assert b], with assertions enabled (the interpreter is not started
    with [-O]). *)
Definition py_assert (b : bool) : M unit :=
  if b then ret tt else raise AssertionError.

(** Attribute access [o.attr] on a value that may be [None]: on [None]
    Python raises [AttributeError]. *)
Definition deref {A} (o : option A) : M A :=
  match o with Some a => ret a | None => raise AttributeError end.

(** ** Platform operations *)

(** [os.open(path, flags)].  The module does not create the pipes: a path
    with no pipe behind it is a [FileNotFoundError].  Opening a pipe
    returns once the other side has opened it too; the host is taken to be
    there, so the call does not wait.  Paths that exist without being a
    pipe (a directory, say) and the errors they give are left out: [fs]
    holds pipes only. *)
Definition os_open (path : string) (flags : OFlag) : M FileDesc :=
  fun w => match fs w !! path with
           | None => Raise FileNotFoundError w
           | Some _ => Return {| fd_path := path; fd_flags := flags |}
                              (log (EvOpen path flags) w)
           end.

(** [os.fdopen(fd, 'w')] *)
Definition os_fdopen_w (fd : FileDesc) : M TextWriter :=
  ret {| w_path := fd_path fd; w_pending := EmptyString |}.

(** [os.fdopen(fd, 'r')] *)
Definition os_fdopen_r (fd : FileDesc) : M TextReader :=
  ret {| r_path := fd_path fd |}.

(** [f.write(text)]: the text goes to the file object's buffer. *)
Definition TextWriter_write (f : TextWriter) (text : string) : M TextWriter :=
  fun w => Return {| w_path := w_path f; w_pending := w_pending f +:+ text |}
                  (log (EvWrite (w_path f) text) w).

Definition deliver (path bytes : string) (m : gmap string Pipe) : gmap string Pipe :=
  <[path := {| unread := unread (pipe_at m path) +:+ bytes;
               writerClosed := writerClosed (pipe_at m path) |}]> m.

(** [f.flush()]: the buffer goes onto the pipe.  The host is taken to
    keep its reading end open, so the write goes through; what a flush
    does once the host is gone (it raises and keeps the text) is not
    modelled, and the theorems about tokens reaching the host assume the
    host is still there. *)
Definition TextWriter_flush (f : TextWriter) : M TextWriter :=
  fun w => Return {| w_path := w_path f; w_pending := EmptyString |}
                  (log (EvFlush (w_path f) (w_pending f))
                       (with_fs (deliver (w_path f) (w_pending f) (fs w)) w)).

(** [f.close()] on a writer: flush, then release the descriptor. *)
Definition TextWriter_close (f : TextWriter) : M unit :=
  let* f' := TextWriter_flush f in
  fun w => Return tt (log (EvClose (w_path f')) w).

Definition LF : ascii := "010"%char.
Definition CR : ascii := "013"%char.

(** One line from the unread text [s] of a file opened with mode ['r'].
    [os.fdopen(fd, 'r')] leaves [newline] at its default [None], Python's
    universal newlines: a line ends at ["\n"], ["\r\n"] or ["\r"], and each
    of these reaches the caller as ["\n"].  The result is the line and the
    text left unread; [None] is a read that has to wait: no line end yet
    and the writer has not closed ([eof = false]), or a trailing ["\r"]
    that a ["\n"] may still follow.  At end of file the rest is returned
    as it is, empty if nothing is left. *)
Fixpoint read_universal (eof : bool) (s : string) : option (string * string) :=
  match s with
  | EmptyString => if eof then Some (EmptyString, EmptyString) else None
  | String c rest =>
      if Ascii.eqb c LF then Some (String LF EmptyString, rest)
      else if Ascii.eqb c CR then
        match rest with
        | EmptyString =>
            if eof then Some (String LF EmptyString, EmptyString) else None
        | String c' rest' =>
            if Ascii.eqb c' LF then Some (String LF EmptyString, rest')
            else Some (String LF EmptyString, rest)
        end
      else
        match read_universal eof rest with
        | Some (line, rest') => Some (String c line, rest')
        | None => None
        end
  end.

(** [f.readline()] *)
Definition TextReader_readline (f : TextReader) : M string :=
  fun w =>
    let p := pipe_at (fs w) (r_path f) in
    match read_universal (writerClosed p) (unread p) with
    | None => Blocked w
    | Some (line, rest) =>
        Return line
          (log (EvReadline (r_path f) line)
               (with_fs (<[r_path f := {| unread := rest;
                                          writerClosed := writerClosed p |}]> (fs w)) w))
    end.

(** [f.close()] on a reader. *)
Definition TextReader_close (f : TextReader) : M unit :=
  fun w => Return tt (log (EvClose (r_path f)) w).

(** [sys.__excepthook__]: report the exception on the standard error. *)
Definition sys___excepthook__ (exceptionType : PyExn) (value : string)
    (traceback : list string) : M unit :=
  fun w => Return tt (log (EvDefaultExcepthook exceptionType value traceback) w).

(** Reading and assigning the globals. *)
Definition read_ackFIFO : M (option AckFIFO) := fun w => Return (_ackFIFO w) w.
Definition store_ackFIFO (g : option AckFIFO) : M unit :=
  fun w => Return tt (with_ackFIFO g w).
Definition read_dataFIFO : M (option DataFIFO) := fun w => Return (_dataFIFO w) w.
Definition store_dataFIFO (g : option DataFIFO) : M unit :=
  fun w => Return tt (with_dataFIFO g w).

(** [sys.excepthook = h] *)
Definition set_excepthook (h : Hook) : M unit :=
  fun w => Return tt (log (EvSetExcepthook h) (with_excepthook h w)).

(** ** class AckFIFO *)

Definition _ackString : string := "ack".
Definition _nackString : string := "nck".

Definition AckFIFO__init__ (ackFIFOName : string) : M AckFIFO :=
  let* writeDescriptor := os_open ackFIFOName O_WRONLY in
  let* fw := os_fdopen_w writeDescriptor in
  ret {| ackFIFOName := ackFIFOName; fileWriter := Some fw |}.

(** The methods change [self] in place; here they return the changed
    [self], which the caller stores back where the object lives. *)
Definition AckFIFO_writeAck (self : AckFIFO) : M AckFIFO :=
  let* _ := py_assert (not_None (fileWriter self)) in
  let* fw := deref (fileWriter self) in
  let* fw := TextWriter_write fw _ackString in
  let* fw := TextWriter_flush fw in
  ret {| ackFIFOName := ackFIFOName self; fileWriter := Some fw |}.

Definition AckFIFO_writeNack (self : AckFIFO) : M AckFIFO :=
  let* _ := py_assert (not_None (fileWriter self)) in
  let* fw := deref (fileWriter self) in
  let* fw := TextWriter_write fw _nackString in
  let* fw := TextWriter_flush fw in
  ret {| ackFIFOName := ackFIFOName self; fileWriter := Some fw |}.

Definition AckFIFO_close (self : AckFIFO) : M AckFIFO :=
  let* _ := py_assert (not_None (fileWriter self)) in
  let* fw := deref (fileWriter self) in
  let* _ := TextWriter_close fw in
  ret {| ackFIFOName := ackFIFOName self; fileWriter := None |}.

(** ** class DataFIFO *)

Definition DataFIFO__init__ (dataFIFOName : string) : M DataFIFO :=
  let* readDescriptor := os_open dataFIFOName O_RDONLY in
  let* fr := os_fdopen_r readDescriptor in
  ret {| dataFIFOName := dataFIFOName; fileReader := Some fr |}.

Definition DataFIFO_readLine (self : DataFIFO) : M string :=
  let* _ := py_assert (not_None (fileReader self)) in
  let* fr := deref (fileReader self) in
  TextReader_readline fr.

Definition DataFIFO_close (self : DataFIFO) : M DataFIFO :=
  let* _ := py_assert (not_None (fileReader self)) in
  let* fr := deref (fileReader self) in
  let* _ := TextReader_close fr in
  ret {| dataFIFOName := dataFIFOName self; fileReader := None |}.

(** ** Module functions *)

Definition sendAck : M unit :=
  let* g := read_ackFIFO in
  let* self := deref g in
  let* self' := AckFIFO_writeAck self in
  store_ackFIFO (Some self').

Definition sendNack : M unit :=
  let* g := read_ackFIFO in
  let* self := deref g in
  let* self' := AckFIFO_writeNack self in
  store_ackFIFO (Some self').

Definition gatkExceptionHook (exceptionType : PyExn) (value : string)
    (traceback : list string) : M unit :=
  let* _ := sendNack in
  sys___excepthook__ exceptionType value traceback.

(** A function body as the list of its statements, run in order; a
    statement that raises or blocks ends the run. *)
Fixpoint block (body : list (M unit)) : M unit :=
  match body with
  | [] => ret tt
  | stmt :: body' => let* _ := stmt in block body'
  end.

(** The states the process is in after each statement of a body, up to
    and including the one at which a statement raised or blocked. *)
Fixpoint states_through (body : list (M unit)) (w : World) : list World :=
  match body with
  | [] => []
  | stmt :: body' =>
      match stmt w with
      | Return _ w' => w' :: states_through body' w'
      | Raise _ w' => [w']
      | Blocked w' => [w']
      end
  end.

(** The two statements of [onTraversalStart]:
    [_ackFIFO = AckFIFO(ackFIFOName)], then
    [sys.excepthook = gatkExceptionHook].  The trace records what the
    module's statements do; what the interpreter does with a channel
    object the assignment replaces (it lets go of the object and of its
    file) is not recorded, here or in [initializeDataFIFO]. *)
Definition onTraversalStart_body (ackFIFOName : string) : list (M unit) :=
  [ (let* ch := AckFIFO__init__ ackFIFOName in store_ackFIFO (Some ch));
    set_excepthook HookGatk ].

Definition onTraversalStart (ackFIFOName : string) : M unit :=
  block (onTraversalStart_body ackFIFOName).

Definition onTraversalSuccess : M unit := ret tt.

Definition closeTool : M unit :=
  let* g := read_ackFIFO in
  let* _ := py_assert (not_None g) in
  let* self := deref g in
  let* self' := AckFIFO_close self in
  let* _ := store_ackFIFO (Some self') in
  store_ackFIFO None.

Definition initializeDataFIFO (dataFIFOName : string) : M unit :=
  let* ch := DataFIFO__init__ dataFIFOName in
  store_dataFIFO (Some ch).

Definition closeDataFIFO : M unit :=
  let* g := read_dataFIFO in
  let* _ := py_assert (not_None g) in
  let* self := deref g in
  let* self' := DataFIFO_close self in
  let* _ := store_dataFIFO (Some self') in
  store_dataFIFO None.

Definition readDataFIFO : M string :=
  let* g := read_dataFIFO in
  let* self := deref g in
  DataFIFO_readLine self.

(** ** The interpreter's top level and the host *)

(** An exception nobody caught reaches the top: the interpreter calls
    whatever [sys.excepthook] is bound to at that moment. *)
Definition call_hook (h : Hook) : PyExn -> string -> list string -> M unit :=
  match h with
  | HookDefault => sys___excepthook__
  | HookGatk => gatkExceptionHook
  end.

Definition uncaught (exceptionType : PyExn) (value : string)
    (traceback : list string) : M unit :=
  fun w => call_hook (excepthook w) exceptionType value traceback w.

(** The calls GATK can make into the module. *)
Inductive Call : Type :=
| CallOnTraversalStart (ackFIFOName : string)
| CallSendAck
| CallSendNack
| CallOnTraversalSuccess
| CallCloseTool
| CallInitializeDataFIFO (dataFIFOName : string)
| CallCloseDataFIFO
| CallReadDataFIFO
| CallGatkExceptionHook (exceptionType : PyExn) (value : string)
                        (traceback : list string).

Definition run_call (c : Call) : M unit :=
  match c with
  | CallOnTraversalStart n => onTraversalStart n
  | CallSendAck => sendAck
  | CallSendNack => sendNack
  | CallOnTraversalSuccess => onTraversalSuccess
  | CallCloseTool => closeTool
  | CallInitializeDataFIFO n => initializeDataFIFO n
  | CallCloseDataFIFO => closeDataFIFO
  | CallReadDataFIFO => let* _ := readDataFIFO in ret tt
  | CallGatkExceptionHook e v tb => gatkExceptionHook e v tb
  end.

(** The host writes [text] on the pipe at [path]; nothing happens once it
    has closed its end. *)
Definition host_write (path text : string) (w : World) : World :=
  if writerClosed (pipe_at (fs w) path) then w
  else with_fs (deliver path text (fs w)) w.

Definition host_write_lines (path : string) (lines : list string) (w : World) : World :=
  fold_left (fun w' line => host_write path line w') lines w.

(** The host closes its end of the pipe at [path]. *)
Definition host_close (path : string) (w : World) : World :=
  with_fs (<[path := {| unread := unread (pipe_at (fs w) path);
                        writerClosed := true |}]> (fs w)) w.

(** [n] calls of [readDataFIFO] in a row, results in call order. *)
Fixpoint readDataFIFO_times (n : nat) : M (list string) :=
  match n with
  | O => ret []
  | S n' =>
      let* line := readDataFIFO in
      let* lines := readDataFIFO_times n' in
      ret (line :: lines)
  end.

(** A fresh process: nothing opened, the interpreter's own hook. *)
Definition boot (pipes : gmap string Pipe) : World :=
  {| fs := pipes; _ackFIFO := None; _dataFIFO := None;
     excepthook := HookDefault; trace := [] |}.

(** ** What one token on the ack pipe looks like *)

(** Going from [w] to [w'], the writer [fw] took the text [token], flushed
    at once, and nothing else moved: the trace grows by the write and the
    flush, the pipe receives what the writer held followed by the token,
    other pipes, the data channel and the hook stay as they were. *)
Definition token_sent (fw : TextWriter) (token : string) (w w' : World) : Prop :=
  trace w' = trace w ++ [EvWrite (w_path fw) token;
                         EvFlush (w_path fw) (w_pending fw +:+ token)]
  /\ pipe_at (fs w') (w_path fw) =
       {| unread := unread (pipe_at (fs w) (w_path fw)) +:+ (w_pending fw +:+ token);
          writerClosed := writerClosed (pipe_at (fs w) (w_path fw)) |}
  /\ (forall q, q <> w_path fw -> fs w' !! q = fs w !! q)
  /\ _dataFIFO w' = _dataFIFO w
  /\ excepthook w' = excepthook w.

Definition flushed (fw : TextWriter) : TextWriter :=
  {| w_path := w_path fw; w_pending := EmptyString |}.

Definition write_flush (fw : TextWriter) (token : string) (w : World) : World :=
  log (EvFlush (w_path fw) (w_pending fw +:+ token))
      (with_fs (deliver (w_path fw) (w_pending fw +:+ token) (fs w))
               (log (EvWrite (w_path fw) token) w)).

(** ** Session start *)

(** The state [onTraversalStart name] leaves when the pipe can be opened. *)
Definition opened_ack (name : string) : AckFIFO :=
  {| ackFIFOName := name;
     fileWriter := Some {| w_path := name; w_pending := EmptyString |} |}.

Definition ack_bound (name : string) (w : World) : World :=
  with_ackFIFO (Some (opened_ack name)) (log (EvOpen name O_WRONLY) w).

Definition started (name : string) (w : World) : World :=
  log (EvSetExcepthook HookGatk) (with_excepthook HookGatk (ack_bound name w)).

Definition opened_data (name : string) : DataFIFO :=
  {| dataFIFOName := name; fileReader := Some {| r_path := name |} |}.


(** The ack channel of [w] is there and its writer is open. *)
Definition ack_open (w : World) : Prop :=
  exists ch fw, _ackFIFO w = Some ch /\ fileWriter ch = Some fw.

(** ** Session end *)

(** The state a successful [closeTool] leaves: the writer [fw] flushed and
    closed, the global cleared. *)
Definition tool_closed (fw : TextWriter) (w : World) : World :=
  with_ackFIFO None
    (log (EvClose (w_path fw))
       (log (EvFlush (w_path fw) (w_pending fw))
          (with_fs (deliver (w_path fw) (w_pending fw) (fs w)) w))).

(** The state a successful [closeDataFIFO] leaves. *)
Definition data_closed (fr : TextReader) (w : World) : World :=
  with_dataFIFO None (log (EvClose (r_path fr)) w).

(** ** Whole sessions *)

(** What can happen to the worker process, one step at a time: GATK has
    it run a call of this module, command code raises an exception that
    nobody catches, or the host writes on a pipe or closes its end. *)
Inductive Action : Type :=
| Invoke (c : Call)
| Throw (exceptionType : PyExn) (value : string) (traceback : list string)
| HostWrite (path text : string)
| HostClose (path : string).

(** A call made at the top level: an exception it raises is uncaught and
    goes to the installed hook. *)
Definition toplevel (m : M unit) (w : World) : World :=
  match m w with
  | Return _ w' => w'
  | Blocked w' => w'
  | Raise e w' => final (uncaught e EmptyString [] w')
  end.

Definition do_action (a : Action) (w : World) : World :=
  match a with
  | Invoke c => toplevel (run_call c) w
  | Throw e v tb => final (uncaught e v tb w)
  | HostWrite path text => host_write path text w
  | HostClose path => host_close path w
  end.

Definition run (acts : list Action) (w : World) : World :=
  fold_left (fun w' a => do_action a w') acts w.

(** Between calls an ack channel held by the global is as [__init__] made
    it: writer open on the channel's own path, nothing buffered. *)
Definition tidy (w : World) : Prop :=
  match _ackFIFO w with
  | None => True
  | Some ch => exists p, ch = opened_ack p
  end.

(** ** Lines *)

Definition nl : string := String LF EmptyString.
Definition cr : string := String CR EmptyString.

(** A line as the host is meant to write it: some characters, none of
    them a carriage return or a newline, then one newline. *)
Fixpoint is_plain_line (s : string) : bool :=
  match s with
  | EmptyString => false
  | String c rest =>
      if Ascii.eqb c LF then
        match rest with EmptyString => true | String _ _ => false end
      else if Ascii.eqb c CR then false
      else is_plain_line rest
  end.

(** A line that ends in a newline, whatever comes before it. *)
Fixpoint ends_with_newline (s : string) : bool :=
  match s with
  | EmptyString => false
  | String c EmptyString => Ascii.eqb c LF
  | String _ rest => ends_with_newline rest
  end.

(** Text in which no line ends: neither a newline nor a carriage return. *)
Fixpoint no_line_end (s : string) : bool :=
  match s with
  | EmptyString => true
  | String c rest =>
      if Ascii.eqb c LF then false
      else if Ascii.eqb c CR then false
      else no_line_end rest
  end.

(** The state after [readline] on [fr] took [line] and left [rest]. *)
Definition line_read (fr : TextReader) (line rest : string) (w : World) : World :=
  log (EvReadline (r_path fr) line)
      (with_fs (<[r_path fr := {| unread := rest;
                                  writerClosed := writerClosed (pipe_at (fs w) (r_path fr)) |}]>
                  (fs w)) w).

Fixpoint concat_lines (lines : list string) : string :=
  match lines with
  | [] => EmptyString
  | l :: ls => l +:+ concat_lines ls
  end.

(** ** Sample sessions *)

(** Four named pipes, nothing written on any of them. *)
Definition pipes1 : gmap string Pipe :=
  <["/tmp/ack1" := emptyPipe]> (<["/tmp/ack2" := emptyPipe]>
    (<["/tmp/data1" := emptyPipe]> (<["/tmp/data2" := emptyPipe]> ∅))).

Definition ackChannel1 : AckFIFO :=
  {| ackFIFOName := "/tmp/ack1";
     fileWriter := Some {| w_path := "/tmp/ack1"; w_pending := EmptyString |} |}.

Definition ackChannelClosed : AckFIFO :=
  {| ackFIFOName := "/tmp/ack1"; fileWriter := None |}.

(** Session started on ["/tmp/ack1"]. *)
Definition session_started : World :=
  run [Invoke (CallOnTraversalStart "/tmp/ack1")] (boot pipes1).

(** Session started, then the tool closed. *)
Definition session_closed : World :=
  run [Invoke (CallOnTraversalStart "/tmp/ack1"); Invoke CallCloseTool] (boot pipes1).

(** Data channel opened on ["/tmp/data1"]. *)
Definition data_started : World :=
  run [Invoke (CallInitializeDataFIFO "/tmp/data1")] (boot pipes1).

(** Data channel open on ["/tmp/data1"], on which the host has written the
    line ["A\r\n"]. *)
Definition data_crlf : World :=
  run [Invoke (CallInitializeDataFIFO "/tmp/data1");
       HostWrite "/tmp/data1" ("A" +:+ cr +:+ nl)] (boot pipes1).

(** Data channel open on ["/tmp/data1"], on which the host has written the
    line ["A\n"]. *)
Definition data_line : World :=
  run [Invoke (CallInitializeDataFIFO "/tmp/data1");
       HostWrite "/tmp/data1" ("A" +:+ nl)] (boot pipes1).

(** Data channel open on ["/tmp/data1"], the host has closed its end
    without writing. *)
Definition data_eof : World :=
  run [Invoke (CallInitializeDataFIFO "/tmp/data1");
       HostClose "/tmp/data1"] (boot pipes1).

Definition reader1 : TextReader := {| r_path := "/tmp/data1" |}.

Definition two_lines_crlf : list string := ["A" +:+ cr +:+ nl; "B" +:+ cr +:+ nl].

Definition three_lines : list string := ["A" +:+ nl; "B" +:+ nl; "C" +:+ nl].

(** ** The host's side of the ack pipe *)

(** The host has closed its end of the pipe at [path]: the flag that
    [host_close] sets.  On the ack pipe the host's end is the reading
    end, and a token written once the host is gone does not reach it; a
    statement about tokens arriving takes [host_gone] to be [false]. *)
Definition host_gone (path : string) (w : World) : bool :=
  writerClosed (pipe_at (fs w) path).

(** ** Text on the data pipe *)

(** A character of the ASCII range (top bit clear), and text made of
    such characters only: for these, what the reader decodes is what the
    host wrote, byte for byte. *)
Definition is_ascii_char (c : ascii) : bool :=
  match c with Ascii _ _ _ _ _ _ _ b7 => negb b7 end.

Fixpoint is_ascii_text (s : string) : bool :=
  match s with
  | EmptyString => true
  | String c rest => is_ascii_char c && is_ascii_text rest
  end.

(** Data channel open on ["/tmp/data1"] with the given text written by
    the host, its end still open or already closed. *)
Definition data_with (text : string) (closed : bool) : World :=
  run (Invoke (CallInitializeDataFIFO "/tmp/data1")
       :: HostWrite "/tmp/data1" text
       :: (if closed then [HostClose "/tmp/data1"] else [])) (boot pipes1).

(** ** Further notions for whole sessions *)

(** Between calls a data channel held by the global is as [__init__] made
    it: reader open on the channel's own path. *)
Definition tidy_data (w : World) : Prop :=
  match _dataFIFO w with
  | None => True
  | Some ch => exists p, ch = opened_data p
  end.

(** The two signals a command can send, and the module function for each. *)
Inductive Signal : Type := Ack | Nack.

Definition token_of (s : Signal) : string :=
  match s with Ack => _ackString | Nack => _nackString end.

Definition send (s : Signal) : M unit :=
  match s with Ack => sendAck | Nack => sendNack end.

(** One send after the other, in list order. *)
Fixpoint send_all (signals : list Signal) : M unit :=
  match signals with
  | [] => ret tt
  | s :: rest => let* _ := send s in send_all rest
  end.

Fixpoint concat_tokens (signals : list Signal) : string :=
  match signals with
  | [] => EmptyString
  | s :: rest => token_of s +:+ concat_tokens rest
  end.

(** An event that puts nothing into a writer or onto a pipe. *)
Definition quiet (ev : Event) : Prop :=
  match ev with
  | EvWrite _ _ | EvFlush _ _ => False
  | _ => True
  end.

(** A stretch of trace in which the only text written is a token, each
    write followed at once by the flush of exactly that token; a flush
    with nothing to push (the one [close] does) is allowed. *)
Inductive tokens_only : list Event -> Prop :=
| tokens_nil : tokens_only []
| tokens_token p t rest :
    t = _ackString \/ t = _nackString ->
    tokens_only rest ->
    tokens_only (EvWrite p t :: EvFlush p t :: rest)
| tokens_empty_flush p rest :
    tokens_only rest -> tokens_only (EvFlush p EmptyString :: rest)
| tokens_quiet ev rest :
    quiet ev -> tokens_only rest -> tokens_only (ev :: rest).

(** Some ack pipe was opened for writing in this stretch of trace. *)
Definition ack_opened (evs : list Event) : bool :=
  existsb (fun ev => match ev with
                     | EvOpen _ O_WRONLY => true
                     | _ => false
                     end) evs.

(** From [w] to [w'] the trace only grew, by a stretch that writes tokens
    only, and the hook either stayed as it was with no ack pipe opened, or
    is [gatkExceptionHook] with an ack pipe opened in the stretch. *)
Definition step_ok (w w' : World) : Prop :=
  exists evs,
    trace w' = trace w ++ evs /\
    tokens_only evs /\
    ((excepthook w' = excepthook w /\ ack_opened evs = false) \/
     (excepthook w' = HookGatk /\ ack_opened evs = true)).

(** Text without a carriage return. *)
Fixpoint no_cr (s : string) : bool :=
  match s with
  | EmptyString => true
  | String c rest => if Ascii.eqb c CR then false else no_cr rest
  end.

(** The state after [close] on the object [ackChannel1] in a fresh
    process, and a [DataFIFO] object after its [close]. *)
Definition ack1_object_closed : World :=
  log (EvClose "/tmp/ack1")
    (log (EvFlush "/tmp/ack1" EmptyString)
       (with_fs (deliver "/tmp/ack1" EmptyString pipes1) (boot pipes1))).

Definition dataChannelClosed : DataFIFO :=
  {| dataFIFOName := "/tmp/data1"; fileReader := None |}.

(** Data channel open on ["/tmp/data1"]; the host wrote ["A\n"] and the
    unterminated ["rest"], then closed its end. *)
Definition data_tail : World :=
  run [Invoke (CallInitializeDataFIFO "/tmp/data1");
       HostWrite "/tmp/data1" ("A" +:+ nl +:+ "rest");
       HostClose "/tmp/data1"] (boot pipes1).

(** Text without a newline. *)
Fixpoint no_lf (s : string) : bool :=
  match s with
  | EmptyString => true
  | String c rest => if Ascii.eqb c LF then false else no_lf rest
  end.

Lemma pipe_at_deliver_eq path bytes (m : gmap string Pipe) :
  pipe_at (deliver path bytes m) path =
    {| unread := unread (pipe_at m path) +:+ bytes;
       writerClosed := writerClosed (pipe_at m path) |}.
Proof. unfold deliver, pipe_at at 1. rewrite lookup_insert_eq. reflexivity. Qed.

Lemma lookup_deliver_ne path bytes q (m : gmap string Pipe) :
  q <> path -> deliver path bytes m !! q = m !! q.
Proof. intros Hq. unfold deliver. apply lookup_insert_ne. congruence. Qed.

Lemma write_flush_token_sent fw token w :
  token_sent fw token w (write_flush fw token w).
Proof.
  unfold token_sent, write_flush; simpl.
  repeat split.
  - rewrite <- app_assoc. reflexivity.
  - apply pipe_at_deliver_eq.
  - intros q Hq. apply lookup_deliver_ne, Hq.
Qed.

Lemma AckFIFO_writeAck_open self fw w :
  fileWriter self = Some fw ->
  AckFIFO_writeAck self w =
    Return {| ackFIFOName := ackFIFOName self; fileWriter := Some (flushed fw) |}
           (write_flush fw _ackString w).
Proof. destruct self as [n o]; simpl; intros ->. reflexivity. Qed.

Lemma AckFIFO_writeNack_open self fw w :
  fileWriter self = Some fw ->
  AckFIFO_writeNack self w =
    Return {| ackFIFOName := ackFIFOName self; fileWriter := Some (flushed fw) |}
           (write_flush fw _nackString w).
Proof. destruct self as [n o]; simpl; intros ->. reflexivity. Qed.

Lemma AckFIFO_writeAck_closed self w :
  fileWriter self = None -> AckFIFO_writeAck self w = Raise AssertionError w.
Proof. destruct self as [n o]; simpl; intros ->. reflexivity. Qed.

Lemma AckFIFO_writeNack_closed self w :
  fileWriter self = None -> AckFIFO_writeNack self w = Raise AssertionError w.
Proof. destruct self as [n o]; simpl; intros ->. reflexivity. Qed.

(** C2. On an open ack channel [writeAck] writes the three characters
    ["ack"] and flushes at once, [writeNack] does the same with ["nck"];
    on a channel whose [fileWriter] is [None] both stop with an
    [AssertionError] and touch nothing. *)
Theorem writeAck_writeNack_token (self : AckFIFO) (w : World) :
  String.length _ackString = 3 /\ String.length _nackString = 3 /\
  (forall fw, fileWriter self = Some fw ->
     exists w' wn',
       AckFIFO_writeAck self w =
         Return {| ackFIFOName := ackFIFOName self;
                   fileWriter := Some {| w_path := w_path fw; w_pending := EmptyString |} |} w'
       /\ token_sent fw "ack" w w' /\ _ackFIFO w' = _ackFIFO w
       /\ AckFIFO_writeNack self w =
         Return {| ackFIFOName := ackFIFOName self;
                   fileWriter := Some {| w_path := w_path fw; w_pending := EmptyString |} |} wn'
       /\ token_sent fw "nck" w wn' /\ _ackFIFO wn' = _ackFIFO w) /\
  (fileWriter self = None ->
     AckFIFO_writeAck self w = Raise AssertionError w /\
     AckFIFO_writeNack self w = Raise AssertionError w).
Proof.
  split; [reflexivity|]. split; [reflexivity|]. split.
  - intros fw Hfw.
    exists (write_flush fw _ackString w), (write_flush fw _nackString w).
    rewrite (AckFIFO_writeAck_open _ _ _ Hfw), (AckFIFO_writeNack_open _ _ _ Hfw).
    repeat split; apply write_flush_token_sent.
  - intros Hnone. split.
    + apply AckFIFO_writeAck_closed, Hnone.
    + apply AckFIFO_writeNack_closed, Hnone.
Qed.

Lemma writeAck_writeNack_token_witness :
  (fileWriter ackChannel1 = Some {| w_path := "/tmp/ack1"; w_pending := EmptyString |} /\
   exists w' wn',
    AckFIFO_writeAck ackChannel1 (boot pipes1) = Return ackChannel1 w'
    /\ token_sent {| w_path := "/tmp/ack1"; w_pending := EmptyString |} "ack" (boot pipes1) w'
    /\ _ackFIFO w' = None
    /\ AckFIFO_writeNack ackChannel1 (boot pipes1) = Return ackChannel1 wn'
    /\ token_sent {| w_path := "/tmp/ack1"; w_pending := EmptyString |} "nck" (boot pipes1) wn'
    /\ _ackFIFO wn' = None) /\
  (fileWriter ackChannelClosed = None /\
   AckFIFO_writeAck ackChannelClosed (boot pipes1) = Raise AssertionError (boot pipes1) /\
   AckFIFO_writeNack ackChannelClosed (boot pipes1) = Raise AssertionError (boot pipes1)).
Proof.
  split.
  - split; [reflexivity|].
    exact (proj1 (proj2 (proj2 (writeAck_writeNack_token ackChannel1 (boot pipes1))))
             {| w_path := "/tmp/ack1"; w_pending := EmptyString |} eq_refl).
  - split; [reflexivity|].
    exact (proj2 (proj2 (proj2 (writeAck_writeNack_token ackChannelClosed (boot pipes1))))
             eq_refl).
Defined.

Lemma onTraversalStart_missing name w :
  fs w !! name = None ->
  onTraversalStart name w = Raise FileNotFoundError w
  /\ states_through (onTraversalStart_body name) w = [w].
Proof.
  intros H. unfold onTraversalStart, onTraversalStart_body. simpl.
  unfold bind, AckFIFO__init__, bind, os_open. rewrite H. split; reflexivity.
Qed.

Lemma onTraversalStart_present name w :
  is_Some (fs w !! name) ->
  onTraversalStart name w = Return tt (started name w)
  /\ states_through (onTraversalStart_body name) w = [ack_bound name w; started name w].
Proof.
  intros [p H]. unfold onTraversalStart, onTraversalStart_body. simpl.
  unfold bind, AckFIFO__init__, bind, os_open. rewrite H. split; reflexivity.
Qed.



(** C3. In every run of [onTraversalStart] the assignment to
    [sys.excepthook] comes after the ack pipe has been opened: in the
    trace the run adds, whatever precedes the installation contains the
    opening of that pipe; and starting with the interpreter's own hook, no
    state the run passes through has [gatkExceptionHook] installed while
    the ack channel is missing. *)
Theorem hook_installed_after_ack_open :
  (forall name w pre post,
     trace (final (onTraversalStart name w)) =
       trace w ++ pre ++ EvSetExcepthook HookGatk :: post ->
     In (EvOpen name O_WRONLY) pre) /\
  (forall name w,
     excepthook w = HookDefault ->
     Forall (fun w' => excepthook w' = HookGatk -> ack_open w')
            (w :: states_through (onTraversalStart_body name) w)).
Proof.
  split.
  - intros name w pre post.
    destruct (fs w !! name) as [p|] eqn:Hfs.
    + destruct (onTraversalStart_present name w) as [-> _]; [eauto|].
      simpl. rewrite <- app_assoc. intros H. apply app_inv_head in H.
      destruct pre as [|e1 [|e2 pre]]; simpl in H.
      * discriminate H.
      * injection H as <- _. left. reflexivity.
      * injection H as _ _ H. destruct pre; discriminate H.
    + destruct (onTraversalStart_missing name w Hfs) as [-> _].
      simpl. intros H. exfalso.
      apply (f_equal (@length Event)) in H.
      rewrite !length_app in H. simpl in H. lia.
  - intros name w Hhook.
    destruct (fs w !! name) as [p|] eqn:Hfs.
    + destruct (onTraversalStart_present name w) as [_ ->]; [eauto|].
      repeat constructor.
      * rewrite Hhook. discriminate.
      * simpl. rewrite Hhook. discriminate.
      * intros _. exists (opened_ack name). eexists. split; reflexivity.
    + destruct (onTraversalStart_missing name w Hfs) as [_ ->].
      repeat constructor; rewrite Hhook; discriminate.
Qed.

Lemma hook_installed_after_ack_open_witness :
  (trace (final (onTraversalStart "/tmp/ack1" (boot pipes1))) =
     trace (boot pipes1) ++ [EvOpen "/tmp/ack1" O_WRONLY]
       ++ EvSetExcepthook HookGatk :: [] /\
   In (EvOpen "/tmp/ack1" O_WRONLY) [EvOpen "/tmp/ack1" O_WRONLY]) /\
  (excepthook (boot pipes1) = HookDefault /\
   Forall (fun w' => excepthook w' = HookGatk -> ack_open w')
     (boot pipes1 :: states_through (onTraversalStart_body "/tmp/ack1") (boot pipes1))).
Proof.
  split.
  - assert (H : trace (final (onTraversalStart "/tmp/ack1" (boot pipes1))) =
                trace (boot pipes1) ++ [EvOpen "/tmp/ack1" O_WRONLY]
                  ++ EvSetExcepthook HookGatk :: []) by reflexivity.
    split; [exact H|].
    exact (proj1 hook_installed_after_ack_open "/tmp/ack1" (boot pipes1) _ _ H).
  - split; [reflexivity|].
    exact (proj2 hook_installed_after_ack_open "/tmp/ack1" (boot pipes1) eq_refl).
Defined.


(** ** Closing *)

Lemma closeTool_absent w :
  _ackFIFO w = None -> closeTool w = Raise AssertionError w.
Proof. intros H. unfold closeTool, bind, read_ackFIFO. rewrite H. reflexivity. Qed.

Lemma closeTool_open w ch fw :
  _ackFIFO w = Some ch -> fileWriter ch = Some fw ->
  closeTool w = Return tt (tool_closed fw w).
Proof.
  intros H Hfw. unfold closeTool, bind, read_ackFIFO. rewrite H. simpl.
  unfold AckFIFO_close, bind. rewrite Hfw. reflexivity.
Qed.

Lemma closeTool_writer_gone w ch :
  _ackFIFO w = Some ch -> fileWriter ch = None ->
  closeTool w = Raise AssertionError w.
Proof.
  intros H Hfw. unfold closeTool, bind, read_ackFIFO. rewrite H. simpl.
  unfold AckFIFO_close, bind. rewrite Hfw. reflexivity.
Qed.

Lemma closeDataFIFO_absent w :
  _dataFIFO w = None -> closeDataFIFO w = Raise AssertionError w.
Proof. intros H. unfold closeDataFIFO, bind, read_dataFIFO. rewrite H. reflexivity. Qed.

Lemma closeDataFIFO_open w ch fr :
  _dataFIFO w = Some ch -> fileReader ch = Some fr ->
  closeDataFIFO w = Return tt (data_closed fr w).
Proof.
  intros H Hfr. unfold closeDataFIFO, bind, read_dataFIFO. rewrite H. simpl.
  unfold DataFIFO_close, bind. rewrite Hfr. reflexivity.
Qed.

Lemma closeDataFIFO_reader_gone w ch :
  _dataFIFO w = Some ch -> fileReader ch = None ->
  closeDataFIFO w = Raise AssertionError w.
Proof.
  intros H Hfr. unfold closeDataFIFO, bind, read_dataFIFO. rewrite H. simpl.
  unfold DataFIFO_close, bind. rewrite Hfr. reflexivity.
Qed.

Lemma closeTool_returns_inv w w1 :
  closeTool w = Return tt w1 ->
  exists ch fw, _ackFIFO w = Some ch /\ fileWriter ch = Some fw /\ w1 = tool_closed fw w.
Proof.
  intros H. destruct (_ackFIFO w) as [ch|] eqn:Hg.
  - destruct (fileWriter ch) as [fw|] eqn:Hfw.
    + rewrite (closeTool_open _ _ _ Hg Hfw) in H. injection H as <-. eauto.
    + rewrite (closeTool_writer_gone _ _ Hg Hfw) in H. discriminate H.
  - rewrite (closeTool_absent _ Hg) in H. discriminate H.
Qed.

Lemma closeDataFIFO_returns_inv w w1 :
  closeDataFIFO w = Return tt w1 ->
  exists ch fr, _dataFIFO w = Some ch /\ fileReader ch = Some fr /\ w1 = data_closed fr w.
Proof.
  intros H. destruct (_dataFIFO w) as [ch|] eqn:Hg.
  - destruct (fileReader ch) as [fr|] eqn:Hfr.
    + rewrite (closeDataFIFO_open _ _ _ Hg Hfr) in H. injection H as <-. eauto.
    + rewrite (closeDataFIFO_reader_gone _ _ Hg Hfr) in H. discriminate H.
  - rewrite (closeDataFIFO_absent _ Hg) in H. discriminate H.
Qed.

(** C5. [closeTool] with no ack channel and [closeDataFIFO] with no data
    channel stop with an [AssertionError]; a close that succeeds leaves the
    global [None], so the same close called again stops with an
    [AssertionError]. *)
Theorem close_when_closed_faults :
  (forall w, _ackFIFO w = None -> closeTool w = Raise AssertionError w) /\
  (forall w, _dataFIFO w = None -> closeDataFIFO w = Raise AssertionError w) /\
  (forall w w1, closeTool w = Return tt w1 ->
     _ackFIFO w1 = None /\ closeTool w1 = Raise AssertionError w1) /\
  (forall w w1, closeDataFIFO w = Return tt w1 ->
     _dataFIFO w1 = None /\ closeDataFIFO w1 = Raise AssertionError w1).
Proof.
  split; [exact closeTool_absent|]. split; [exact closeDataFIFO_absent|]. split.
  - intros w w1 H. destruct (closeTool_returns_inv _ _ H) as (ch & fw & _ & _ & ->).
    split; [reflexivity|]. apply closeTool_absent. reflexivity.
  - intros w w1 H. destruct (closeDataFIFO_returns_inv _ _ H) as (ch & fr & _ & _ & ->).
    split; [reflexivity|]. apply closeDataFIFO_absent. reflexivity.
Qed.

Lemma close_when_closed_faults_witness :
  (_ackFIFO (boot pipes1) = None /\
   closeTool (boot pipes1) = Raise AssertionError (boot pipes1)) /\
  (_dataFIFO (boot pipes1) = None /\
   closeDataFIFO (boot pipes1) = Raise AssertionError (boot pipes1)) /\
  (closeTool session_started = Return tt session_closed /\
   _ackFIFO session_closed = None /\
   closeTool session_closed = Raise AssertionError session_closed) /\
  (closeDataFIFO data_started =
     Return tt (data_closed {| r_path := "/tmp/data1" |} data_started) /\
   _dataFIFO (data_closed {| r_path := "/tmp/data1" |} data_started) = None /\
   closeDataFIFO (data_closed {| r_path := "/tmp/data1" |} data_started) =
     Raise AssertionError (data_closed {| r_path := "/tmp/data1" |} data_started)).
Proof.
  destruct close_when_closed_faults as (Ha & Hd & Haa & Hdd).
  split; [split; [reflexivity | exact (Ha (boot pipes1) eq_refl)]|].
  split; [split; [reflexivity | exact (Hd (boot pipes1) eq_refl)]|].
  split.
  - assert (H : closeTool session_started = Return tt session_closed) by reflexivity.
    split; [exact H | exact (Haa _ _ H)].
  - assert (H : closeDataFIFO data_started =
                Return tt (data_closed {| r_path := "/tmp/data1" |} data_started))
      by reflexivity.
    split; [exact H | exact (Hdd _ _ H)].
Defined.

(** C8. [onTraversalSuccess] does nothing: it returns and the ack
    channel, the data channel, the installed hook, the pipes and the trace
    are what they were. *)
Theorem onTraversalSuccess_noop (w : World) :
  onTraversalSuccess w = Return tt w /\
  _ackFIFO (final (onTraversalSuccess w)) = _ackFIFO w /\
  _dataFIFO (final (onTraversalSuccess w)) = _dataFIFO w /\
  excepthook (final (onTraversalSuccess w)) = excepthook w /\
  fs (final (onTraversalSuccess w)) = fs w /\
  trace (final (onTraversalSuccess w)) = trace w.
Proof. repeat split. Qed.

(** ** Calls on a channel that is not there *)

Lemma sendAck_absent w : _ackFIFO w = None -> sendAck w = Raise AttributeError w.
Proof. intros H. unfold sendAck, bind, read_ackFIFO. rewrite H. reflexivity. Qed.

Lemma sendNack_absent w : _ackFIFO w = None -> sendNack w = Raise AttributeError w.
Proof. intros H. unfold sendNack, bind, read_ackFIFO. rewrite H. reflexivity. Qed.

Lemma readDataFIFO_absent w : _dataFIFO w = None -> readDataFIFO w = Raise AttributeError w.
Proof. intros H. unfold readDataFIFO, bind, read_dataFIFO. rewrite H. reflexivity. Qed.

(** C9. With the channel's global [None], [sendAck], [sendNack] and
    [readDataFIFO] stop with an [AttributeError] (the method call on
    [None]), which is not the [AssertionError] with which [closeTool] and
    [closeDataFIFO] stop in the same state. *)
Theorem absent_channel_attribute_error :
  (forall w, _ackFIFO w = None ->
     sendAck w = Raise AttributeError w /\
     sendNack w = Raise AttributeError w /\
     closeTool w = Raise AssertionError w) /\
  (forall w, _dataFIFO w = None ->
     readDataFIFO w = Raise AttributeError w /\
     closeDataFIFO w = Raise AssertionError w) /\
  AttributeError <> AssertionError.
Proof.
  split; [|split].
  - intros w H. split; [apply sendAck_absent, H|].
    split; [apply sendNack_absent, H | apply closeTool_absent, H].
  - intros w H. split; [apply readDataFIFO_absent, H | apply closeDataFIFO_absent, H].
  - discriminate.
Qed.

Lemma absent_channel_attribute_error_witness :
  (_ackFIFO session_closed = None /\
   sendAck session_closed = Raise AttributeError session_closed /\
   sendNack session_closed = Raise AttributeError session_closed /\
   closeTool session_closed = Raise AssertionError session_closed) /\
  (_dataFIFO (boot pipes1) = None /\
   readDataFIFO (boot pipes1) = Raise AttributeError (boot pipes1) /\
   closeDataFIFO (boot pipes1) = Raise AssertionError (boot pipes1)).
Proof.
  split.
  - split; [reflexivity|].
    exact (proj1 absent_channel_attribute_error session_closed eq_refl).
  - split; [reflexivity|].
    exact (proj1 (proj2 absent_channel_attribute_error) (boot pipes1) eq_refl).
Defined.

(** ** Opening twice *)

Lemma onTraversalStart_cases name w :
  onTraversalStart name w = Raise FileNotFoundError w \/
  onTraversalStart name w = Return tt (started name w).
Proof.
  destruct (fs w !! name) as [p|] eqn:H.
  - right. apply onTraversalStart_present. eauto.
  - left. apply onTraversalStart_missing, H.
Qed.





(** ** The hook stays *)

(** Unfold the module's functions down to the platform operations. *)
Ltac unfold_py :=
  cbv beta iota delta
    [run_call onTraversalStart onTraversalStart_body block sendAck sendNack
     onTraversalSuccess closeTool initializeDataFIFO closeDataFIFO readDataFIFO
     gatkExceptionHook AckFIFO__init__ AckFIFO_writeAck AckFIFO_writeNack
     AckFIFO_close DataFIFO__init__ DataFIFO_readLine DataFIFO_close
     os_open os_fdopen_w os_fdopen_r TextWriter_write TextWriter_flush
     TextWriter_close TextReader_readline TextReader_close sys___excepthook__
     read_ackFIFO store_ackFIFO read_dataFIFO store_dataFIFO set_excepthook
     py_assert not_None deref bind ret raise].

(** Case analysis on a world: its globals, the objects they hold, and
    whatever lookup or scan the goal then branches on. *)
Ltac world_cases w :=
  let m := fresh "m" in
  let a := fresh "a" in
  let d := fresh "d" in
  let h := fresh "h" in
  let t := fresh "t" in
  destruct w as [m a d h t];
  try (destruct a as [[? [[? ?]|]]|]);
  try (destruct d as [[? [[?]|]]|]);
  unfold_py; cbn;
  repeat match goal with
         | |- context [read_universal ?b ?s] =>
             destruct (read_universal b s) as [[? ?]|] eqn:?; cbn
         | |- context [@lookup _ _ (gmap string Pipe) _ ?k ?m] =>
             destruct (@lookup _ _ (gmap string Pipe) _ k m) eqn:?; cbn
         end.

Lemma run_call_hook c w :
  excepthook (final (run_call c w)) = excepthook w \/
  excepthook (final (run_call c w)) = HookGatk.
Proof. destruct c; world_cases w; auto. Qed.

Lemma sys___excepthook___hook e v tb w :
  excepthook (final (sys___excepthook__ e v tb w)) = excepthook w.
Proof. reflexivity. Qed.

Lemma uncaught_hook e v tb w :
  excepthook (final (uncaught e v tb w)) = excepthook w.
Proof.
  unfold uncaught. destruct (excepthook w) eqn:Hh; simpl.
  - exact Hh.
  - destruct (run_call_hook (CallGatkExceptionHook e v tb) w) as [H | H];
      simpl in H; rewrite H; [exact Hh | reflexivity].
Qed.

Lemma toplevel_hook m w :
  (excepthook (final (m w)) = excepthook w \/ excepthook (final (m w)) = HookGatk) ->
  excepthook (toplevel m w) = excepthook w \/ excepthook (toplevel m w) = HookGatk.
Proof.
  unfold toplevel. destruct (m w) as [u w' | e w' | w']; simpl; try tauto.
  rewrite uncaught_hook. tauto.
Qed.

Lemma do_action_hook a w :
  excepthook (do_action a w) = excepthook w \/ excepthook (do_action a w) = HookGatk.
Proof.
  destruct a as [c | e v tb | path text | path]; simpl.
  - apply toplevel_hook, run_call_hook.
  - left. apply uncaught_hook.
  - left. unfold host_write. destruct (writerClosed _); reflexivity.
  - left. reflexivity.
Qed.

Lemma gatkExceptionHook_absent e v tb w :
  _ackFIFO w = None -> gatkExceptionHook e v tb w = Raise AttributeError w.
Proof.
  intros H. unfold gatkExceptionHook, bind. rewrite (sendNack_absent _ H). reflexivity.
Qed.

(** C10. Nothing takes [gatkExceptionHook] out of [sys.excepthook]: once
    installed it is still installed after any call of the module, any
    uncaught exception and any move of the host, in particular after
    [closeTool] and [onTraversalSuccess].  So after a [closeTool] that
    followed [onTraversalStart], an uncaught exception goes to
    [gatkExceptionHook], whose [sendNack] finds the global [None] and stops
    with an [AttributeError]: nothing is written on any pipe and the
    interpreter's own hook is not reached. *)
Theorem hook_never_uninstalled :
  (forall a w, excepthook w = HookGatk -> excepthook (do_action a w) = HookGatk) /\
  (forall c w, excepthook w = HookGatk ->
     excepthook (final (run_call c w)) = HookGatk) /\
  (forall name w w1,
     onTraversalStart name w = Return tt w1 ->
     excepthook w1 = HookGatk /\
     excepthook (final (onTraversalSuccess w1)) = HookGatk /\
     exists w2,
       closeTool w1 = Return tt w2 /\
       excepthook w2 = HookGatk /\
       _ackFIFO w2 = None /\
       forall e v tb,
         uncaught e v tb w2 = gatkExceptionHook e v tb w2 /\
         gatkExceptionHook e v tb w2 = Raise AttributeError w2).
Proof.
  split; [|split].
  - intros a w H. destruct (do_action_hook a w) as [H' | H']; congruence.
  - intros c w H. destruct (run_call_hook c w) as [H' | H']; congruence.
  - intros name w w1 Hstart.
    destruct (onTraversalStart_cases name w) as [H | H];
      rewrite H in Hstart; [discriminate Hstart|]. injection Hstart as <-.
    split; [reflexivity|]. split; [reflexivity|].
    exists (tool_closed {| w_path := name; w_pending := EmptyString |} (started name w)).
    split; [apply (closeTool_open _ (opened_ack name)); reflexivity|].
    split; [reflexivity|]. split; [reflexivity|].
    intros e v tb. split; [reflexivity|].
    apply gatkExceptionHook_absent. reflexivity.
Qed.

Lemma hook_never_uninstalled_witness :
  (excepthook session_started = HookGatk /\
   excepthook (do_action (Invoke CallCloseTool) session_started) = HookGatk) /\
  (excepthook session_started = HookGatk /\
   excepthook (final (run_call CallOnTraversalSuccess session_started)) = HookGatk) /\
  (onTraversalStart "/tmp/ack1" (boot pipes1) = Return tt session_started /\
   excepthook session_started = HookGatk /\
   excepthook (final (onTraversalSuccess session_started)) = HookGatk /\
   exists w2,
     closeTool session_started = Return tt w2 /\
     excepthook w2 = HookGatk /\
     _ackFIFO w2 = None /\
     forall e v tb,
       uncaught e v tb w2 = gatkExceptionHook e v tb w2 /\
       gatkExceptionHook e v tb w2 = Raise AttributeError w2).
Proof.
  destruct hook_never_uninstalled as (Ha & Hc & Hs).
  split; [split; [reflexivity | exact (Ha (Invoke CallCloseTool) session_started eq_refl)]|].
  split; [split; [reflexivity | exact (Hc CallOnTraversalSuccess session_started eq_refl)]|].
  assert (H : onTraversalStart "/tmp/ack1" (boot pipes1) = Return tt session_started)
    by reflexivity.
  split; [exact H | exact (Hs _ _ _ H)].
Defined.

(** ** The ack channel between calls *)

Ltac tidy_cases w Ht :=
  let m := fresh "m" in
  let a := fresh "a" in
  let d := fresh "d" in
  let h := fresh "h" in
  let t := fresh "t" in
  let p := fresh "p" in
  destruct w as [m a d h t];
  unfold tidy in Ht |- *; cbn in Ht;
  destruct a as [?|]; [destruct Ht as [p ->]|];
  try (destruct d as [[? [[?]|]]|]);
  unfold_py; cbn;
  repeat match goal with
         | |- context [read_universal ?b ?s] =>
             destruct (read_universal b s) as [[? ?]|] eqn:?; cbn
         | |- context [@lookup _ _ (gmap string Pipe) _ ?k ?m] =>
             destruct (@lookup _ _ (gmap string Pipe) _ k m) eqn:?; cbn
         end;
  try exact I; try (eexists; reflexivity).

Lemma boot_tidy pipes : tidy (boot pipes).
Proof. exact I. Qed.

Lemma run_call_tidy c w : tidy w -> tidy (final (run_call c w)).
Proof. intros Ht. destruct c; tidy_cases w Ht. Qed.

Lemma uncaught_tidy e v tb w : tidy w -> tidy (final (uncaught e v tb w)).
Proof.
  intros Ht. unfold uncaught. destruct (excepthook w); simpl.
  - exact Ht.
  - exact (run_call_tidy (CallGatkExceptionHook e v tb) w Ht).
Qed.

Lemma do_action_tidy a w : tidy w -> tidy (do_action a w).
Proof.
  intros Ht. destruct a as [c | e v tb | path text | path]; simpl.
  - unfold toplevel. pose proof (run_call_tidy c w Ht) as H.
    destruct (run_call c w) as [u w' | e w' | w']; simpl in H; try exact H.
    apply uncaught_tidy, H.
  - apply uncaught_tidy, Ht.
  - unfold host_write. destruct (writerClosed _); exact Ht.
  - exact Ht.
Qed.

Lemma run_tidy acts : forall w, tidy w -> tidy (run acts w).
Proof.
  induction acts as [|a acts IH]; intros w Ht; simpl.
  - exact Ht.
  - apply IH, do_action_tidy, Ht.
Qed.

Lemma sendNack_open w ch fw :
  _ackFIFO w = Some ch -> fileWriter ch = Some fw ->
  sendNack w =
    Return tt (with_ackFIFO
                 (Some {| ackFIFOName := ackFIFOName ch; fileWriter := Some (flushed fw) |})
                 (write_flush fw _nackString w)).
Proof.
  intros H Hfw. unfold sendNack, bind, read_ackFIFO. rewrite H. simpl.
  rewrite (AckFIFO_writeNack_open _ _ _ Hfw). reflexivity.
Qed.

Lemma sendAck_open w ch fw :
  _ackFIFO w = Some ch -> fileWriter ch = Some fw ->
  sendAck w =
    Return tt (with_ackFIFO
                 (Some {| ackFIFOName := ackFIFOName ch; fileWriter := Some (flushed fw) |})
                 (write_flush fw _ackString w)).
Proof.
  intros H Hfw. unfold sendAck, bind, read_ackFIFO. rewrite H. simpl.
  rewrite (AckFIFO_writeAck_open _ _ _ Hfw). reflexivity.
Qed.

(** The handler on an open channel: the nack goes out, then the
    interpreter's own hook reports the exception. *)
Lemma gatkExceptionHook_open e v tb w ch fw :
  _ackFIFO w = Some ch -> fileWriter ch = Some fw ->
  gatkExceptionHook e v tb w =
    Return tt
      (log (EvDefaultExcepthook e v tb)
         (with_ackFIFO
            (Some {| ackFIFOName := ackFIFOName ch; fileWriter := Some (flushed fw) |})
            (write_flush fw _nackString w))).
Proof.
  intros H Hfw. unfold gatkExceptionHook, bind.
  rewrite (sendNack_open _ _ _ H Hfw). reflexivity.
Qed.

(** C1, as the code has it.  In any state a session can reach, with
    [gatkExceptionHook] installed, the ack channel still there and the
    host not gone from the ack pipe, an uncaught exception makes the
    handler write ["nck"] once on the ack pipe and flush, and then call
    [sys.__excepthook__] with the same exception: the trace gains exactly
    the write, the flush and the report, in this order, the ack pipe gains
    exactly ["nck"], nothing else changes. *)
Theorem uncaught_sends_one_nack :
  forall pipes acts e v tb ch,
    excepthook (run acts (boot pipes)) = HookGatk ->
    _ackFIFO (run acts (boot pipes)) = Some ch ->
    host_gone (ackFIFOName ch) (run acts (boot pipes)) = false ->
    exists w',
      ch = opened_ack (ackFIFOName ch) /\
      uncaught e v tb (run acts (boot pipes)) = Return tt w' /\
      trace w' = trace (run acts (boot pipes))
                   ++ [EvWrite (ackFIFOName ch) "nck"; EvFlush (ackFIFOName ch) "nck";
                       EvDefaultExcepthook e v tb] /\
      pipe_at (fs w') (ackFIFOName ch) =
        {| unread := unread (pipe_at (fs (run acts (boot pipes))) (ackFIFOName ch))
                       +:+ "nck";
           writerClosed := false |} /\
      (forall q, q <> ackFIFOName ch -> fs w' !! q = fs (run acts (boot pipes)) !! q) /\
      _ackFIFO w' = _ackFIFO (run acts (boot pipes)) /\
      _dataFIFO w' = _dataFIFO (run acts (boot pipes)) /\
      excepthook w' = HookGatk.
Proof.
  intros pipes acts e v tb ch Hhook Hg Hhost.
  pose proof (run_tidy acts _ (boot_tidy pipes)) as Ht.
  set (w := run acts (boot pipes)) in *.
  unfold tidy in Ht. rewrite Hg in Ht. destruct Ht as [p ->]. simpl in *.
  eexists. split; [reflexivity|].
  unfold uncaught. rewrite Hhook. simpl.
  rewrite (gatkExceptionHook_open e v tb w _ _ Hg eq_refl).
  split; [reflexivity|].
  simpl.
  split; [rewrite <- !app_assoc; reflexivity|].
  split.
  { etransitivity; [exact (pipe_at_deliver_eq p "nck" (fs w))|].
    unfold host_gone in Hhost. rewrite Hhost. reflexivity. }
  split; [intros q Hq; apply lookup_deliver_ne, Hq|].
  split; [rewrite Hg; reflexivity|].
  split; [reflexivity | exact Hhook].
Qed.

Lemma uncaught_sends_one_nack_witness :
  excepthook (run [Invoke (CallOnTraversalStart "/tmp/ack1")] (boot pipes1)) = HookGatk /\
  _ackFIFO (run [Invoke (CallOnTraversalStart "/tmp/ack1")] (boot pipes1)) =
    Some (opened_ack "/tmp/ack1") /\
  host_gone (ackFIFOName (opened_ack "/tmp/ack1"))
    (run [Invoke (CallOnTraversalStart "/tmp/ack1")] (boot pipes1)) = false /\
  exists w',
    opened_ack "/tmp/ack1" = opened_ack (ackFIFOName (opened_ack "/tmp/ack1")) /\
    uncaught (Exception "ValueError") "boom" ["line 1"] session_started = Return tt w' /\
    trace w' = trace session_started
                 ++ [EvWrite "/tmp/ack1" "nck"; EvFlush "/tmp/ack1" "nck";
                     EvDefaultExcepthook (Exception "ValueError") "boom" ["line 1"]] /\
    pipe_at (fs w') "/tmp/ack1" =
      {| unread := unread (pipe_at (fs session_started) "/tmp/ack1") +:+ "nck";
         writerClosed := false |} /\
    (forall q, q <> "/tmp/ack1" -> fs w' !! q = fs session_started !! q) /\
    _ackFIFO w' = _ackFIFO session_started /\
    _dataFIFO w' = _dataFIFO session_started /\
    excepthook w' = HookGatk.
Proof.
  split; [reflexivity|]. split; [reflexivity|]. split; [reflexivity|].
  apply (uncaught_sends_one_nack pipes1 [Invoke (CallOnTraversalStart "/tmp/ack1")]
           (Exception "ValueError") "boom" ["line 1"] (opened_ack "/tmp/ack1"));
    reflexivity.
Defined.

(** C1 as stated fails: after [onTraversalStart] and [closeTool] the hook
    is still installed, and an uncaught exception ends in an
    [AttributeError] from the handler with the state untouched: no token
    written, [sys.__excepthook__] not called. *)
Lemma uncaught_after_close_counterexample :
  session_closed =
    run [Invoke (CallOnTraversalStart "/tmp/ack1"); Invoke CallCloseTool] (boot pipes1) /\
  excepthook session_closed = HookGatk /\
  uncaught (Exception "ValueError") "boom" ["line 1"] session_closed =
    Raise AttributeError session_closed /\
  fs session_closed !! "/tmp/ack1" = Some {| unread := EmptyString; writerClosed := false |}.
Proof. repeat split. Qed.

(** ** Reading lines *)

Lemma append_cons (x : ascii) (a b : string) : String x a +:+ b = String x (a +:+ b).
Proof. reflexivity. Qed.

Lemma append_assoc (a b c : string) : (a +:+ b) +:+ c = a +:+ (b +:+ c).
Proof.
  induction a as [|x a IH]; [reflexivity|].
  rewrite !append_cons, IH. reflexivity.
Qed.

Lemma append_empty_r (a : string) : a +:+ EmptyString = a.
Proof.
  induction a as [|x a IH]; [reflexivity|].
  rewrite append_cons, IH. reflexivity.
Qed.

(** A plain line at the head of the unread text is what the scan takes,
    character for character. *)
Lemma read_universal_plain line :
  is_plain_line line = true ->
  forall eof rest, read_universal eof (line +:+ rest) = Some (line, rest).
Proof.
  induction line as [|c line IH]; [discriminate|].
  intros Hplain eof rest. rewrite append_cons.
  cbn [is_plain_line] in Hplain. cbn [read_universal].
  destruct (Ascii.eqb c LF) eqn:Hlf.
  - apply Ascii.eqb_eq in Hlf. subst c.
    destruct line; [reflexivity | discriminate Hplain].
  - destruct (Ascii.eqb c CR) eqn:Hcr; [discriminate Hplain|].
    rewrite (IH Hplain). reflexivity.
Qed.

Lemma read_universal_waits s :
  no_line_end s = true -> read_universal false s = None.
Proof.
  induction s as [|c s IH]; simpl; [reflexivity|].
  destruct (Ascii.eqb c LF); [discriminate|].
  destruct (Ascii.eqb c CR); [discriminate|].
  intros H. rewrite (IH H). reflexivity.
Qed.

(** A line the host ends with carriage return and newline is taken up to
    there, the two characters reaching the caller as one newline. *)
Lemma read_universal_crlf body :
  no_line_end body = true ->
  forall eof rest,
    read_universal eof (body +:+ cr +:+ nl +:+ rest) = Some (body +:+ nl, rest).
Proof.
  induction body as [|c body IH]; intros Hbody eof rest.
  - reflexivity.
  - rewrite !append_cons. cbn [no_line_end] in Hbody. cbn [read_universal].
    destruct (Ascii.eqb c LF); [discriminate Hbody|].
    destruct (Ascii.eqb c CR); [discriminate Hbody|].
    rewrite (IH Hbody). reflexivity.
Qed.

Lemma DataFIFO_readLine_open self fr w :
  fileReader self = Some fr -> DataFIFO_readLine self w = TextReader_readline fr w.
Proof. destruct self as [n o]; simpl; intros ->. reflexivity. Qed.

Lemma readDataFIFO_bound w self :
  _dataFIFO w = Some self -> readDataFIFO w = DataFIFO_readLine self w.
Proof. intros H. unfold readDataFIFO, bind, read_dataFIFO. rewrite H. reflexivity. Qed.

Lemma TextReader_readline_plain fr w line rest :
  is_plain_line line = true ->
  unread (pipe_at (fs w) (r_path fr)) = line +:+ rest ->
  TextReader_readline fr w = Return line (line_read fr line rest w).
Proof.
  intros Hplain Hun. unfold TextReader_readline.
  rewrite Hun, (read_universal_plain _ Hplain). reflexivity.
Qed.

Lemma pipe_at_line_read fr line rest w :
  pipe_at (fs (line_read fr line rest w)) (r_path fr) =
    {| unread := rest; writerClosed := writerClosed (pipe_at (fs w) (r_path fr)) |}.
Proof. unfold line_read, pipe_at at 1. simpl. rewrite lookup_insert_eq. reflexivity. Qed.

Lemma TextReader_readline_scan fr w line rest :
  read_universal (writerClosed (pipe_at (fs w) (r_path fr)))
                 (unread (pipe_at (fs w) (r_path fr))) = Some (line, rest) ->
  TextReader_readline fr w = Return line (line_read fr line rest w).
Proof. intros H. unfold TextReader_readline. rewrite H. reflexivity. Qed.

Lemma TextReader_readline_waits fr w :
  read_universal (writerClosed (pipe_at (fs w) (r_path fr)))
                 (unread (pipe_at (fs w) (r_path fr))) = None ->
  TextReader_readline fr w = Blocked w.
Proof. intros H. unfold TextReader_readline. rewrite H. reflexivity. Qed.

Lemma no_line_end_plain body :
  no_line_end body = true -> is_plain_line (body +:+ nl) = true.
Proof.
  induction body as [|c body IH]; intros H; [reflexivity|].
  rewrite append_cons. cbn [no_line_end] in H. cbn [is_plain_line].
  destruct (Ascii.eqb c LF); [discriminate H|].
  destruct (Ascii.eqb c CR); [discriminate H|].
  apply IH, H.
Qed.

Lemma read_universal_lf body :
  no_line_end body = true ->
  forall eof tail,
    read_universal eof (body +:+ nl +:+ tail) = Some (body +:+ nl, tail).
Proof.
  intros H eof tail. rewrite <- append_assoc.
  apply read_universal_plain, no_line_end_plain, H.
Qed.

(** A carriage return followed by another character ends the line; the
    character stays unread. *)
Lemma read_universal_cr_char body c tail :
  no_line_end body = true ->
  Ascii.eqb c LF = false ->
  forall eof,
    read_universal eof (body +:+ cr +:+ String c tail) = Some (body +:+ nl, String c tail).
Proof.
  intros Hbody Hc eof. induction body as [|x body IH].
  - change (read_universal eof (String CR (String c tail)) =
            Some (String LF EmptyString, String c tail)).
    cbn [read_universal]. rewrite Hc. reflexivity.
  - rewrite !append_cons. cbn [no_line_end] in Hbody. cbn [read_universal].
    destruct (Ascii.eqb x LF); [discriminate Hbody|].
    destruct (Ascii.eqb x CR); [discriminate Hbody|].
    rewrite (IH Hbody). reflexivity.
Qed.

(** A carriage return with nothing after it ends the line once the host
    has closed its end; until then the read waits for what follows. *)
Lemma read_universal_cr_last body :
  no_line_end body = true ->
  forall eof,
    read_universal eof (body +:+ cr) =
      if eof then Some (body +:+ nl, EmptyString) else None.
Proof.
  intros Hbody eof. induction body as [|x body IH].
  - destruct eof; reflexivity.
  - rewrite !append_cons. cbn [no_line_end] in Hbody. cbn [read_universal].
    destruct (Ascii.eqb x LF); [discriminate Hbody|].
    destruct (Ascii.eqb x CR); [discriminate Hbody|].
    rewrite (IH Hbody). destruct eof; reflexivity.
Qed.

(** With the host's end closed, text without a line end is returned whole. *)
Lemma read_universal_remainder s :
  no_line_end s = true -> read_universal true s = Some (s, EmptyString).
Proof.
  induction s as [|c s IH]; intros H; [reflexivity|].
  cbn [no_line_end] in H. cbn [read_universal].
  destruct (Ascii.eqb c LF); [discriminate H|].
  destruct (Ascii.eqb c CR); [discriminate H|].
  rewrite (IH H). reflexivity.
Qed.

(** Any text either has no line end, or splits at its first one. *)
Lemma line_end_cases s :
  no_line_end s = true \/
  exists body tail,
    no_line_end body = true /\
    (s = body +:+ nl +:+ tail \/
     s = body +:+ cr +:+ nl +:+ tail \/
     (s = body +:+ cr /\ tail = EmptyString) \/
     exists c, Ascii.eqb c LF = false /\ s = body +:+ cr +:+ String c tail).
Proof.
  induction s as [|x s IH]; [left; reflexivity|].
  destruct (Ascii.eqb x LF) eqn:Hlf.
  - apply Ascii.eqb_eq in Hlf. subst x. right. exists EmptyString, s.
    split; [reflexivity|]. left. reflexivity.
  - destruct (Ascii.eqb x CR) eqn:Hcr.
    + apply Ascii.eqb_eq in Hcr. subst x. right. exists EmptyString.
      destruct s as [|c t].
      * exists EmptyString. split; [reflexivity|]. right. right. left. auto.
      * exists t. split; [reflexivity|].
        destruct (Ascii.eqb c LF) eqn:Hc.
        -- apply Ascii.eqb_eq in Hc. subst c. right. left. reflexivity.
        -- right. right. right. exists c. auto.
    + destruct IH as [Hn | (body & tail & Hb & Hs)].
      * left. cbn [no_line_end]. rewrite Hlf, Hcr. exact Hn.
      * right. exists (String x body), tail. split.
        { cbn [no_line_end]. rewrite Hlf, Hcr. exact Hb. }
        rewrite !append_cons.
        destruct Hs as [-> | [-> | [[-> ->] | (c & Hc & ->)]]]; eauto 10.
Qed.

(** C6, as the code has it.  On an open data channel carrying ASCII text,
    [readLine] returns one line of text, and every case is covered: the
    unread text either has no line end or splits at its first one into
    the characters before it and the text after it.  A line end is a
    newline, a carriage return and newline, or a carriage return alone;
    the result is the characters before it followed by one newline, the
    text after it stays unread.  So the result is what the host wrote up
    to and including the newline, character for character, exactly when
    that text holds no carriage return.  A carriage return with nothing
    after it ends the line only once the host has closed its end; before
    that the read waits, as it does while no line end has arrived and the
    host's end is open.  With the host's end closed and no line end, the
    result is the unread text as it is, without a newline, the empty
    string when nothing is unread.  [readDataFIFO] is [readLine] on the
    channel the global holds. *)
Theorem readLine_every_case :
  (forall s,
     no_line_end s = true \/
     exists body tail,
       no_line_end body = true /\
       (s = body +:+ nl +:+ tail \/
        s = body +:+ cr +:+ nl +:+ tail \/
        (s = body +:+ cr /\ tail = EmptyString) \/
        exists c, Ascii.eqb c LF = false /\ s = body +:+ cr +:+ String c tail)) /\
  (forall self fr w,
     fileReader self = Some fr ->
     is_ascii_text (unread (pipe_at (fs w) (r_path fr))) = true ->
     (forall body tail,
        no_line_end body = true ->
        unread (pipe_at (fs w) (r_path fr)) = body +:+ nl +:+ tail ->
        DataFIFO_readLine self w =
          Return (body +:+ nl) (line_read fr (body +:+ nl) tail w)) /\
     (forall body tail,
        no_line_end body = true ->
        unread (pipe_at (fs w) (r_path fr)) = body +:+ cr +:+ nl +:+ tail ->
        DataFIFO_readLine self w =
          Return (body +:+ nl) (line_read fr (body +:+ nl) tail w)) /\
     (forall body c tail,
        no_line_end body = true ->
        Ascii.eqb c LF = false ->
        unread (pipe_at (fs w) (r_path fr)) = body +:+ cr +:+ String c tail ->
        DataFIFO_readLine self w =
          Return (body +:+ nl) (line_read fr (body +:+ nl) (String c tail) w)) /\
     (forall body,
        no_line_end body = true ->
        unread (pipe_at (fs w) (r_path fr)) = body +:+ cr ->
        writerClosed (pipe_at (fs w) (r_path fr)) = true ->
        DataFIFO_readLine self w =
          Return (body +:+ nl) (line_read fr (body +:+ nl) EmptyString w)) /\
     (forall body,
        no_line_end body = true ->
        unread (pipe_at (fs w) (r_path fr)) = body +:+ cr ->
        writerClosed (pipe_at (fs w) (r_path fr)) = false ->
        DataFIFO_readLine self w = Blocked w) /\
     (no_line_end (unread (pipe_at (fs w) (r_path fr))) = true ->
      writerClosed (pipe_at (fs w) (r_path fr)) = false ->
      DataFIFO_readLine self w = Blocked w) /\
     (no_line_end (unread (pipe_at (fs w) (r_path fr))) = true ->
      writerClosed (pipe_at (fs w) (r_path fr)) = true ->
      DataFIFO_readLine self w =
        Return (unread (pipe_at (fs w) (r_path fr)))
               (line_read fr (unread (pipe_at (fs w) (r_path fr))) EmptyString w))) /\
  (forall fr line rest w,
     unread (pipe_at (fs (line_read fr line rest w)) (r_path fr)) = rest) /\
  (forall w self, _dataFIFO w = Some self -> readDataFIFO w = DataFIFO_readLine self w).
Proof.
  split; [exact line_end_cases|]. split; [|split].
  - intros self fr w Hfr _. rewrite (DataFIFO_readLine_open _ _ _ Hfr).
    split; [|split; [|split; [|split; [|split; [|split]]]]].
    + intros body tail Hb Hun. apply TextReader_readline_scan.
      rewrite Hun. apply read_universal_lf, Hb.
    + intros body tail Hb Hun. apply TextReader_readline_scan.
      rewrite Hun. apply read_universal_crlf, Hb.
    + intros body c tail Hb Hc Hun. apply TextReader_readline_scan.
      rewrite Hun. apply read_universal_cr_char; assumption.
    + intros body Hb Hun Hcl. apply TextReader_readline_scan.
      rewrite Hun, Hcl. apply (read_universal_cr_last _ Hb true).
    + intros body Hb Hun Hcl. apply TextReader_readline_waits.
      rewrite Hun, Hcl. apply (read_universal_cr_last _ Hb false).
    + intros Hn Hcl. apply TextReader_readline_waits.
      rewrite Hcl. apply read_universal_waits, Hn.
    + intros Hn Hcl. apply TextReader_readline_scan.
      rewrite Hcl. apply read_universal_remainder, Hn.
  - intros fr line rest w. rewrite pipe_at_line_read. reflexivity.
  - intros w self. apply readDataFIFO_bound.
Qed.

Lemma readLine_every_case_witness :
  (fileReader (opened_data "/tmp/data1") = Some reader1 /\
   is_ascii_text (unread (pipe_at (fs (data_with ("A" +:+ nl +:+ "B") false))
                            (r_path reader1))) = true /\
   no_line_end "A" = true /\
   unread (pipe_at (fs (data_with ("A" +:+ nl +:+ "B") false)) (r_path reader1)) =
     "A" +:+ nl +:+ "B" /\
   DataFIFO_readLine (opened_data "/tmp/data1") (data_with ("A" +:+ nl +:+ "B") false) =
     Return ("A" +:+ nl)
       (line_read reader1 ("A" +:+ nl) "B" (data_with ("A" +:+ nl +:+ "B") false))) /\
  (is_ascii_text (unread (pipe_at (fs (data_with ("A" +:+ cr +:+ nl +:+ "B") false))
                            (r_path reader1))) = true /\
   unread (pipe_at (fs (data_with ("A" +:+ cr +:+ nl +:+ "B") false)) (r_path reader1)) =
     "A" +:+ cr +:+ nl +:+ "B" /\
   DataFIFO_readLine (opened_data "/tmp/data1")
     (data_with ("A" +:+ cr +:+ nl +:+ "B") false) =
     Return ("A" +:+ nl)
       (line_read reader1 ("A" +:+ nl) "B"
          (data_with ("A" +:+ cr +:+ nl +:+ "B") false))) /\
  (is_ascii_text (unread (pipe_at (fs (data_with ("A" +:+ cr +:+ "BC") false))
                            (r_path reader1))) = true /\
   Ascii.eqb "B"%char LF = false /\
   unread (pipe_at (fs (data_with ("A" +:+ cr +:+ "BC") false)) (r_path reader1)) =
     "A" +:+ cr +:+ String "B"%char "C" /\
   DataFIFO_readLine (opened_data "/tmp/data1") (data_with ("A" +:+ cr +:+ "BC") false) =
     Return ("A" +:+ nl)
       (line_read reader1 ("A" +:+ nl) (String "B"%char "C")
          (data_with ("A" +:+ cr +:+ "BC") false))) /\
  (is_ascii_text (unread (pipe_at (fs (data_with ("A" +:+ cr) true))
                            (r_path reader1))) = true /\
   unread (pipe_at (fs (data_with ("A" +:+ cr) true)) (r_path reader1)) = "A" +:+ cr /\
   writerClosed (pipe_at (fs (data_with ("A" +:+ cr) true)) (r_path reader1)) = true /\
   DataFIFO_readLine (opened_data "/tmp/data1") (data_with ("A" +:+ cr) true) =
     Return ("A" +:+ nl)
       (line_read reader1 ("A" +:+ nl) EmptyString (data_with ("A" +:+ cr) true))) /\
  (is_ascii_text (unread (pipe_at (fs (data_with ("A" +:+ cr) false))
                            (r_path reader1))) = true /\
   unread (pipe_at (fs (data_with ("A" +:+ cr) false)) (r_path reader1)) = "A" +:+ cr /\
   writerClosed (pipe_at (fs (data_with ("A" +:+ cr) false)) (r_path reader1)) = false /\
   DataFIFO_readLine (opened_data "/tmp/data1") (data_with ("A" +:+ cr) false) =
     Blocked (data_with ("A" +:+ cr) false)) /\
  (is_ascii_text (unread (pipe_at (fs (data_with "rest" false)) (r_path reader1))) = true /\
   no_line_end (unread (pipe_at (fs (data_with "rest" false)) (r_path reader1))) = true /\
   writerClosed (pipe_at (fs (data_with "rest" false)) (r_path reader1)) = false /\
   DataFIFO_readLine (opened_data "/tmp/data1") (data_with "rest" false) =
     Blocked (data_with "rest" false)) /\
  (is_ascii_text (unread (pipe_at (fs (data_with "rest" true)) (r_path reader1))) = true /\
   no_line_end (unread (pipe_at (fs (data_with "rest" true)) (r_path reader1))) = true /\
   writerClosed (pipe_at (fs (data_with "rest" true)) (r_path reader1)) = true /\
   DataFIFO_readLine (opened_data "/tmp/data1") (data_with "rest" true) =
     Return (unread (pipe_at (fs (data_with "rest" true)) (r_path reader1)))
       (line_read reader1
          (unread (pipe_at (fs (data_with "rest" true)) (r_path reader1)))
          EmptyString (data_with "rest" true))) /\
  (_dataFIFO data_line = Some (opened_data "/tmp/data1") /\
   readDataFIFO data_line = DataFIFO_readLine (opened_data "/tmp/data1") data_line).
Proof.
  destruct readLine_every_case as (_ & Hread & _ & Hglobal).
  assert (Hat : forall w,
             is_ascii_text (unread (pipe_at (fs w) (r_path reader1))) = true ->
             _) by (intros w Ha; exact (Hread (opened_data "/tmp/data1") reader1 w eq_refl Ha)).
  split; [|split; [|split; [|split; [|split; [|split; [|split]]]]]].
  - split; [reflexivity|]. split; [reflexivity|]. split; [reflexivity|].
    split; [reflexivity|].
    apply (proj1 (Hat (data_with ("A" +:+ nl +:+ "B") false) eq_refl) "A" "B");
      reflexivity.
  - split; [reflexivity|]. split; [reflexivity|].
    apply (proj1 (proj2 (Hat (data_with ("A" +:+ cr +:+ nl +:+ "B") false) eq_refl))
             "A" "B"); reflexivity.
  - split; [reflexivity|]. split; [reflexivity|]. split; [reflexivity|].
    apply (proj1 (proj2 (proj2 (Hat (data_with ("A" +:+ cr +:+ "BC") false) eq_refl)))
             "A" "B"%char "C"); reflexivity.
  - split; [reflexivity|]. split; [reflexivity|]. split; [reflexivity|].
    apply (proj1 (proj2 (proj2 (proj2 (Hat (data_with ("A" +:+ cr) true) eq_refl))))
             "A"); reflexivity.
  - split; [reflexivity|]. split; [reflexivity|]. split; [reflexivity|].
    apply (proj1 (proj2 (proj2 (proj2 (proj2
             (Hat (data_with ("A" +:+ cr) false) eq_refl))))) "A"); reflexivity.
  - split; [reflexivity|]. split; [reflexivity|]. split; [reflexivity|].
    apply (proj1 (proj2 (proj2 (proj2 (proj2 (proj2
             (Hat (data_with "rest" false) eq_refl)))))));
      reflexivity.
  - split; [reflexivity|]. split; [reflexivity|]. split; [reflexivity|].
    apply (proj2 (proj2 (proj2 (proj2 (proj2 (proj2
             (Hat (data_with "rest" true) eq_refl)))))));
      reflexivity.
  - split; [reflexivity|].
    apply (Hglobal data_line (opened_data "/tmp/data1")). reflexivity.
Defined.

(** C6 as stated fails: the host writes the line ["A\r\n"] on the open
    data channel; [readDataFIFO] returns ["A\n"], which is not what the
    host wrote up to and including the newline. *)
Lemma readLine_crlf_counterexample :
  _dataFIFO data_crlf = Some (opened_data "/tmp/data1") /\
  unread (pipe_at (fs data_crlf) "/tmp/data1") = "A" +:+ cr +:+ nl /\
  readDataFIFO data_crlf =
    Return ("A" +:+ nl) (line_read reader1 ("A" +:+ nl) EmptyString data_crlf) /\
  "A" +:+ nl <> "A" +:+ cr +:+ nl.
Proof. repeat split. discriminate. Qed.

(** ** Round trip *)

Lemma host_write_open path text w :
  writerClosed (pipe_at (fs w) path) = false ->
  host_write path text w = with_fs (deliver path text (fs w)) w.
Proof. intros H. unfold host_write. rewrite H. reflexivity. Qed.

Lemma host_write_lines_open path lines :
  forall w,
    writerClosed (pipe_at (fs w) path) = false ->
    pipe_at (fs (host_write_lines path lines w)) path =
      {| unread := unread (pipe_at (fs w) path) +:+ concat_lines lines;
         writerClosed := false |}
    /\ _dataFIFO (host_write_lines path lines w) = _dataFIFO w.
Proof.
  induction lines as [|l lines IH]; intros w Hopen; simpl.
  - rewrite append_empty_r. split; [|reflexivity].
    destruct (pipe_at (fs w) path) as [u c]; simpl in *. rewrite Hopen. reflexivity.
  - fold (host_write_lines path lines (host_write path l w)).
    rewrite (host_write_open _ _ _ Hopen).
    destruct (IH (with_fs (deliver path l (fs w)) w)) as [Hp Hd].
    + simpl. rewrite pipe_at_deliver_eq. exact Hopen.
    + rewrite Hp, Hd. simpl. rewrite pipe_at_deliver_eq. simpl.
      rewrite append_assoc. split; reflexivity.
Qed.

Lemma readDataFIFO_times_plain self fr lines :
  fileReader self = Some fr ->
  forallb is_plain_line lines = true ->
  forall w rest,
    _dataFIFO w = Some self ->
    unread (pipe_at (fs w) (r_path fr)) = concat_lines lines +:+ rest ->
    exists w',
      readDataFIFO_times (length lines) w = Return lines w' /\
      unread (pipe_at (fs w') (r_path fr)) = rest /\
      _dataFIFO w' = Some self.
Proof.
  intros Hfr. induction lines as [|l lines IH]; intros Hplain w rest Hg Hun.
  - exists w. split; [reflexivity|]. split; [exact Hun | exact Hg].
  - simpl in Hplain. apply andb_prop in Hplain as [Hl Hls].
    simpl in Hun. rewrite append_assoc in Hun.
    destruct (IH Hls (line_read fr l (concat_lines lines +:+ rest) w) rest)
      as (w' & Hrun & Hrest & Hg').
    + exact Hg.
    + rewrite pipe_at_line_read. reflexivity.
    + exists w'. split; [|split; assumption].
      simpl. unfold bind at 1.
      rewrite (readDataFIFO_bound _ _ Hg), (DataFIFO_readLine_open _ _ _ Hfr),
        (TextReader_readline_plain _ _ _ _ Hl Hun).
      unfold bind at 1. rewrite Hrun. reflexivity.
Qed.

(** C7, as the code has it.  The data channel is open with nothing
    unread; the host writes [N] lines, each some characters other than
    carriage return and newline followed by one newline.  Then [N] calls of
    [readDataFIFO] return these lines, unchanged and in the order written,
    and nothing is left unread. *)
Theorem data_lines_round_trip :
  forall w self fr lines,
    _dataFIFO w = Some self ->
    fileReader self = Some fr ->
    pipe_at (fs w) (r_path fr) = {| unread := EmptyString; writerClosed := false |} ->
    forallb is_plain_line lines = true ->
    exists w',
      readDataFIFO_times (length lines) (host_write_lines (r_path fr) lines w) =
        Return lines w' /\
      unread (pipe_at (fs w') (r_path fr)) = EmptyString.
Proof.
  intros w self fr lines Hg Hfr Hpipe Hplain.
  destruct (host_write_lines_open (r_path fr) lines w) as [Hp Hd].
  { rewrite Hpipe. reflexivity. }
  rewrite Hpipe in Hp. simpl in Hp.
  destruct (readDataFIFO_times_plain self fr lines Hfr Hplain
              (host_write_lines (r_path fr) lines w) EmptyString)
    as (w' & Hrun & Hrest & _).
  - rewrite Hd. exact Hg.
  - rewrite Hp, append_empty_r. reflexivity.
  - exists w'. split; assumption.
Qed.

Lemma data_lines_round_trip_witness :
  _dataFIFO data_started = Some (opened_data "/tmp/data1") /\
  fileReader (opened_data "/tmp/data1") = Some reader1 /\
  pipe_at (fs data_started) (r_path reader1) = {| unread := EmptyString; writerClosed := false |} /\
  forallb is_plain_line three_lines = true /\
  exists w',
    readDataFIFO_times (length three_lines)
      (host_write_lines (r_path reader1) three_lines data_started) =
      Return three_lines w' /\
    unread (pipe_at (fs w') (r_path reader1)) = EmptyString.
Proof.
  split; [reflexivity|]. split; [reflexivity|]. split; [reflexivity|].
  split; [reflexivity|].
  apply (data_lines_round_trip data_started (opened_data "/tmp/data1") reader1 three_lines);
    reflexivity.
Defined.

(** C7 as stated fails: the host writes the two lines ["A\r\n"] and
    ["B\r\n"], each ending in a newline; two calls of [readDataFIFO] return
    ["A\n"] and ["B\n"], not the lines written. *)
Lemma round_trip_crlf_counterexample :
  forallb ends_with_newline two_lines_crlf = true /\
  (exists w',
     readDataFIFO_times (length two_lines_crlf)
       (host_write_lines "/tmp/data1" two_lines_crlf data_started) =
       Return ["A" +:+ nl; "B" +:+ nl] w') /\
  ["A" +:+ nl; "B" +:+ nl] <> two_lines_crlf.
Proof.
  split; [reflexivity|]. split; [|discriminate].
  eexists. vm_compute. reflexivity.
Qed.

(** * Further properties of the module *)

(** ** A failed call changes nothing *)

(** X1. A module function that stops on a failed assertion, on a method
    call on a [None] global, or on a pipe that is not there, has changed
    nothing: globals, pipes, hook and trace are those of the state it was
    called in.  The same holds for a [readDataFIFO] that has to wait for
    the host. *)
Theorem failed_call_changes_nothing :
  (forall c w e w',
     run_call c w = Raise e w' ->
     e = AssertionError \/ e = AttributeError \/ e = FileNotFoundError ->
     w' = w) /\
  (forall c w w', run_call c w = Blocked w' -> w' = w).
Proof.
  split.
  - intros c w e w' H _. revert H. destruct c; world_cases w; intros H;
      first [discriminate H | injection H as _ <-; reflexivity].
  - intros c w w'. destruct c; world_cases w; intros H;
      first [discriminate H | injection H as <-; reflexivity].
Qed.

Lemma failed_call_changes_nothing_witness :
  (run_call (CallOnTraversalStart "/tmp/nowhere") session_started =
     Raise FileNotFoundError session_started /\
   (FileNotFoundError = AssertionError \/ FileNotFoundError = AttributeError \/
    FileNotFoundError = FileNotFoundError) /\
   session_started = session_started) /\
  (run_call CallReadDataFIFO data_started = Blocked data_started /\
   data_started = data_started).
Proof.
  destruct failed_call_changes_nothing as [Hr Hb].
  split.
  - assert (H : run_call (CallOnTraversalStart "/tmp/nowhere") session_started =
                Raise FileNotFoundError session_started) by reflexivity.
    assert (He : FileNotFoundError = AssertionError \/ FileNotFoundError = AttributeError \/
                 FileNotFoundError = FileNotFoundError) by (right; right; reflexivity).
    split; [exact H|]. split; [exact He | exact (Hr _ _ _ _ H He)].
  - assert (H : run_call CallReadDataFIFO data_started = Blocked data_started)
      by reflexivity.
    split; [exact H | exact (Hb _ _ _ H)].
Defined.

(** ** What the globals hold between calls *)

Ltac neat_cases w Ha Hd :=
  let m := fresh "m" in
  let a := fresh "a" in
  let d := fresh "d" in
  let h := fresh "h" in
  let t := fresh "t" in
  let p := fresh "p" in
  let q := fresh "q" in
  destruct w as [m a d h t];
  unfold tidy, tidy_data in Ha, Hd |- *; cbn in Ha, Hd;
  destruct a as [?|]; [destruct Ha as [p ->]|];
  (destruct d as [?|]; [destruct Hd as [q ->]|]);
  unfold_py; cbn;
  repeat match goal with
         | |- context [read_universal ?b ?s] =>
             destruct (read_universal b s) as [[? ?]|] eqn:?; cbn
         | |- context [@lookup _ _ (gmap string Pipe) _ ?k ?m] =>
             destruct (@lookup _ _ (gmap string Pipe) _ k m) eqn:?; cbn
         end.

Lemma run_call_tidy_data c w : tidy_data w -> tidy_data (final (run_call c w)).
Proof.
  intros Hd. destruct c; destruct w as [m a d h t];
    unfold tidy_data in Hd |- *; cbn in Hd;
    (destruct d as [?|]; [destruct Hd as [q ->]|]);
    try (destruct a as [[? [[? ?]|]]|]);
    unfold_py; cbn;
    repeat match goal with
           | |- context [read_universal ?b ?s] =>
               destruct (read_universal b s) as [[? ?]|] eqn:?; cbn
           | |- context [@lookup _ _ (gmap string Pipe) _ ?k ?m] =>
               destruct (@lookup _ _ (gmap string Pipe) _ k m) eqn:?; cbn
           end;
    try exact I; try (eexists; reflexivity).
Qed.

Lemma uncaught_tidy_data e v tb w : tidy_data w -> tidy_data (final (uncaught e v tb w)).
Proof.
  intros Hd. unfold uncaught. destruct (excepthook w); simpl.
  - exact Hd.
  - exact (run_call_tidy_data (CallGatkExceptionHook e v tb) w Hd).
Qed.

Lemma do_action_tidy_data a w : tidy_data w -> tidy_data (do_action a w).
Proof.
  intros Hd. destruct a as [c | e v tb | path text | path]; simpl.
  - unfold toplevel. pose proof (run_call_tidy_data c w Hd) as H.
    destruct (run_call c w) as [u w' | e w' | w']; simpl in H; try exact H.
    apply uncaught_tidy_data, H.
  - apply uncaught_tidy_data, Hd.
  - unfold host_write. destruct (writerClosed _); exact Hd.
  - exact Hd.
Qed.

Lemma run_tidy_data acts : forall w, tidy_data w -> tidy_data (run acts w).
Proof.
  induction acts as [|a acts IH]; intros w Hd; simpl.
  - exact Hd.
  - apply IH, do_action_tidy_data, Hd.
Qed.

(** X2. Whatever the session did so far, a channel object held by a
    global has its file attribute set, never [None], on the path the
    channel was created with: a channel that has been closed does not
    stay in a global.  And as long as the host has not gone from the ack
    pipe, the ack writer has nothing left in its buffer: every token
    written has been pushed onto the pipe when the call returns. *)
Theorem global_channels_have_files :
  forall pipes acts,
    (forall ch, _ackFIFO (run acts (boot pipes)) = Some ch ->
       exists fw, fileWriter ch = Some fw /\ w_path fw = ackFIFOName ch) /\
    (forall ch fw,
       _ackFIFO (run acts (boot pipes)) = Some ch ->
       fileWriter ch = Some fw ->
       host_gone (ackFIFOName ch) (run acts (boot pipes)) = false ->
       w_pending fw = EmptyString) /\
    (forall ch, _dataFIFO (run acts (boot pipes)) = Some ch ->
       fileReader ch = Some {| r_path := dataFIFOName ch |}).
Proof.
  intros pipes acts.
  pose proof (run_tidy acts _ (boot_tidy pipes)) as Ha.
  pose proof (run_tidy_data acts (boot pipes) I) as Hd.
  unfold tidy in Ha. unfold tidy_data in Hd. split; [|split].
  - intros ch H. rewrite H in Ha. destruct Ha as [p ->].
    eexists. split; reflexivity.
  - intros ch fw H Hfw _. rewrite H in Ha. destruct Ha as [p ->].
    injection Hfw as <-. reflexivity.
  - intros ch H. rewrite H in Hd. destruct Hd as [p ->]. reflexivity.
Qed.

Lemma global_channels_have_files_witness :
  (_ackFIFO (run [Invoke (CallOnTraversalStart "/tmp/ack1"); Invoke CallSendAck;
                  Throw (Exception "ValueError") "boom" []] (boot pipes1)) =
     Some (opened_ack "/tmp/ack1") /\
   exists fw,
     fileWriter (opened_ack "/tmp/ack1") = Some fw /\
     w_path fw = ackFIFOName (opened_ack "/tmp/ack1")) /\
  (fileWriter (opened_ack "/tmp/ack1") =
     Some {| w_path := "/tmp/ack1"; w_pending := EmptyString |} /\
   host_gone (ackFIFOName (opened_ack "/tmp/ack1"))
     (run [Invoke (CallOnTraversalStart "/tmp/ack1"); Invoke CallSendAck;
           Throw (Exception "ValueError") "boom" []] (boot pipes1)) = false /\
   w_pending {| w_path := "/tmp/ack1"; w_pending := EmptyString |} = EmptyString) /\
  (_dataFIFO (run [Invoke (CallInitializeDataFIFO "/tmp/data1");
                   HostWrite "/tmp/data1" ("A" +:+ nl);
                   Invoke CallReadDataFIFO] (boot pipes1)) =
     Some (opened_data "/tmp/data1") /\
   fileReader (opened_data "/tmp/data1") =
     Some {| r_path := dataFIFOName (opened_data "/tmp/data1") |}).
Proof.
  assert (H : _ackFIFO (run [Invoke (CallOnTraversalStart "/tmp/ack1");
                             Invoke CallSendAck;
                             Throw (Exception "ValueError") "boom" []] (boot pipes1)) =
              Some (opened_ack "/tmp/ack1")) by reflexivity.
  split; [|split].
  - split; [exact H|].
    exact (proj1 (global_channels_have_files pipes1 _) _ H).
  - split; [reflexivity|]. split; [reflexivity|].
    exact (proj1 (proj2 (global_channels_have_files pipes1 _)) _ _ H eq_refl eq_refl).
  - assert (Hd : _dataFIFO (run [Invoke (CallInitializeDataFIFO "/tmp/data1");
                                 HostWrite "/tmp/data1" ("A" +:+ nl);
                                 Invoke CallReadDataFIFO] (boot pipes1)) =
                 Some (opened_data "/tmp/data1")) by reflexivity.
    split; [exact Hd|].
    exact (proj2 (proj2 (global_channels_have_files pipes1 _)) _ Hd).
Defined.

(** ** Which call fails with what *)

(** X3. In any state a session can reach: a module function that stops
    with an [AssertionError] is [closeTool] or [closeDataFIFO] called with
    its global [None]; one that stops with an [AttributeError] is
    [sendAck], [sendNack], [gatkExceptionHook] or [readDataFIFO] called
    with its global [None]; one that stops with a [FileNotFoundError] is
    [onTraversalStart] or [initializeDataFIFO] given a path with no pipe.
    So the assertions inside the methods of [AckFIFO] and [DataFIFO] never
    fire through the module functions. *)
Theorem module_call_failures :
  forall pipes acts c w',
    (run_call c (run acts (boot pipes)) = Raise AssertionError w' ->
     (c = CallCloseTool /\ _ackFIFO (run acts (boot pipes)) = None) \/
     (c = CallCloseDataFIFO /\ _dataFIFO (run acts (boot pipes)) = None)) /\
    (run_call c (run acts (boot pipes)) = Raise AttributeError w' ->
     ((c = CallSendAck \/ c = CallSendNack \/
       exists t v tb, c = CallGatkExceptionHook t v tb) /\
      _ackFIFO (run acts (boot pipes)) = None) \/
     (c = CallReadDataFIFO /\ _dataFIFO (run acts (boot pipes)) = None)) /\
    (run_call c (run acts (boot pipes)) = Raise FileNotFoundError w' ->
     exists path,
       (c = CallOnTraversalStart path \/ c = CallInitializeDataFIFO path) /\
       fs (run acts (boot pipes)) !! path = None).
Proof.
  intros pipes acts c w'.
  pose proof (run_tidy acts _ (boot_tidy pipes)) as Ha.
  pose proof (run_tidy_data acts (boot pipes) I) as Hd.
  generalize dependent (run acts (boot pipes)). intros w Ha Hd.
  split; [|split].
  - destruct c; neat_cases w Ha Hd; intros H; try discriminate H; tauto.
  - destruct c; neat_cases w Ha Hd; intros H; try discriminate H; eauto 10.
  - destruct c; neat_cases w Ha Hd; intros H; try discriminate H;
      (eexists; split; [eauto | eassumption]).
Qed.

Lemma module_call_failures_witness :
  (run_call CallCloseTool (run [] (boot pipes1)) = Raise AssertionError (boot pipes1) /\
   ((CallCloseTool = CallCloseTool /\ _ackFIFO (run [] (boot pipes1)) = None) \/
    (CallCloseTool = CallCloseDataFIFO /\ _dataFIFO (run [] (boot pipes1)) = None))) /\
  (run_call CallSendNack (run [Invoke (CallOnTraversalStart "/tmp/ack1");
                               Invoke CallCloseTool] (boot pipes1)) =
     Raise AttributeError session_closed /\
   (((CallSendNack = CallSendAck \/ CallSendNack = CallSendNack \/
      exists t v tb, CallSendNack = CallGatkExceptionHook t v tb) /\
     _ackFIFO (run [Invoke (CallOnTraversalStart "/tmp/ack1");
                    Invoke CallCloseTool] (boot pipes1)) = None) \/
    (CallSendNack = CallReadDataFIFO /\
     _dataFIFO (run [Invoke (CallOnTraversalStart "/tmp/ack1");
                     Invoke CallCloseTool] (boot pipes1)) = None))) /\
  (run_call (CallInitializeDataFIFO "/tmp/nowhere") (run [] (boot pipes1)) =
     Raise FileNotFoundError (boot pipes1) /\
   exists path,
     (CallInitializeDataFIFO "/tmp/nowhere" = CallOnTraversalStart path \/
      CallInitializeDataFIFO "/tmp/nowhere" = CallInitializeDataFIFO path) /\
     fs (run [] (boot pipes1)) !! path = None).
Proof.
  split; [|split].
  - assert (H : run_call CallCloseTool (run [] (boot pipes1)) =
                Raise AssertionError (boot pipes1)) by reflexivity.
    split; [exact H|].
    exact (proj1 (module_call_failures pipes1 [] CallCloseTool (boot pipes1)) H).
  - assert (H : run_call CallSendNack
                  (run [Invoke (CallOnTraversalStart "/tmp/ack1");
                        Invoke CallCloseTool] (boot pipes1)) =
                Raise AttributeError session_closed) by reflexivity.
    split; [exact H|].
    exact (proj1 (proj2 (module_call_failures pipes1 _ CallSendNack session_closed)) H).
  - assert (H : run_call (CallInitializeDataFIFO "/tmp/nowhere") (run [] (boot pipes1)) =
                Raise FileNotFoundError (boot pipes1)) by reflexivity.
    split; [exact H|].
    exact (proj2 (proj2 (module_call_failures pipes1 []
                           (CallInitializeDataFIFO "/tmp/nowhere") (boot pipes1))) H).
Defined.

(** ** Tokens arrive in the order sent *)

Lemma append_length (a b : string) :
  String.length (a +:+ b) = String.length a + String.length b.
Proof.
  induction a as [|x a IH]; [reflexivity|].
  rewrite append_cons. simpl. rewrite IH. reflexivity.
Qed.

Lemma send_open s w ch fw :
  _ackFIFO w = Some ch -> fileWriter ch = Some fw ->
  send s w =
    Return tt (with_ackFIFO
                 (Some {| ackFIFOName := ackFIFOName ch; fileWriter := Some (flushed fw) |})
                 (write_flush fw (token_of s) w)).
Proof.
  intros H Hfw. destruct s; simpl.
  - apply sendAck_open; assumption.
  - apply sendNack_open; assumption.
Qed.

Lemma send_all_open signals :
  forall w p,
    _ackFIFO w = Some (opened_ack p) ->
    exists w',
      send_all signals w = Return tt w' /\
      pipe_at (fs w') p =
        {| unread := unread (pipe_at (fs w) p) +:+ concat_tokens signals;
           writerClosed := writerClosed (pipe_at (fs w) p) |} /\
      (forall q, q <> p -> fs w' !! q = fs w !! q) /\
      _ackFIFO w' = Some (opened_ack p) /\
      _dataFIFO w' = _dataFIFO w /\
      excepthook w' = excepthook w.
Proof.
  induction signals as [|s signals IH]; intros w p Hg.
  - exists w. split; [reflexivity|]. simpl. rewrite append_empty_r.
    split; [destruct (pipe_at (fs w) p); reflexivity|]. auto.
  - destruct (IH (with_ackFIFO (Some (opened_ack p))
                    (write_flush {| w_path := p; w_pending := EmptyString |}
                       (token_of s) w)) p eq_refl)
      as (w' & Hrun & Hpipe & Hrest & Hg' & Hd & Hh).
    exists w'. split.
    + simpl. unfold bind. rewrite (send_open s w _ _ Hg eq_refl). exact Hrun.
    + split.
      * rewrite Hpipe. simpl. rewrite pipe_at_deliver_eq. simpl.
        rewrite append_assoc. reflexivity.
      * split; [|auto].
        intros q Hq. rewrite (Hrest q Hq). simpl. apply lookup_deliver_ne, Hq.
Qed.

(** X4. In a reachable state with the ack channel there and the host not
    gone from the ack pipe, any sequence of [sendAck] and [sendNack] calls
    returns, and the ack pipe has gained exactly their tokens, three
    characters each, in the order of the calls; other pipes, the globals
    and the hook are untouched. *)
Theorem tokens_in_call_order :
  forall pipes acts signals ch,
    _ackFIFO (run acts (boot pipes)) = Some ch ->
    host_gone (ackFIFOName ch) (run acts (boot pipes)) = false ->
    exists w',
      send_all signals (run acts (boot pipes)) = Return tt w' /\
      pipe_at (fs w') (ackFIFOName ch) =
        {| unread := unread (pipe_at (fs (run acts (boot pipes))) (ackFIFOName ch))
                       +:+ concat_tokens signals;
           writerClosed := false |} /\
      String.length (concat_tokens signals) = 3 * length signals /\
      (forall q, q <> ackFIFOName ch -> fs w' !! q = fs (run acts (boot pipes)) !! q) /\
      _ackFIFO w' = _ackFIFO (run acts (boot pipes)) /\
      _dataFIFO w' = _dataFIFO (run acts (boot pipes)) /\
      excepthook w' = excepthook (run acts (boot pipes)).
Proof.
  intros pipes acts signals ch Hg Hhost.
  pose proof (run_tidy acts _ (boot_tidy pipes)) as Ht.
  set (w := run acts (boot pipes)) in *.
  unfold tidy in Ht. rewrite Hg in Ht. destruct Ht as [p ->]. simpl in *.
  destruct (send_all_open signals w p Hg) as (w' & Hrun & Hpipe & Hrest & Hg' & Hd & Hh).
  exists w'. split; [exact Hrun|].
  split; [rewrite Hpipe; unfold host_gone in Hhost; rewrite Hhost; reflexivity|].
  split; [|rewrite Hg; auto].
  clear. induction signals as [|s signals IH]; [reflexivity|].
  cbn [concat_tokens length]. rewrite append_length, IH.
  destruct s; simpl; lia.
Qed.

Lemma tokens_in_call_order_witness :
  _ackFIFO (run [Invoke (CallOnTraversalStart "/tmp/ack1")] (boot pipes1)) =
    Some (opened_ack "/tmp/ack1") /\
  host_gone (ackFIFOName (opened_ack "/tmp/ack1"))
    (run [Invoke (CallOnTraversalStart "/tmp/ack1")] (boot pipes1)) = false /\
  exists w',
    send_all [Ack; Nack; Ack] session_started = Return tt w' /\
    pipe_at (fs w') "/tmp/ack1" =
      {| unread := unread (pipe_at (fs session_started) "/tmp/ack1")
                     +:+ concat_tokens [Ack; Nack; Ack];
         writerClosed := false |} /\
    String.length (concat_tokens [Ack; Nack; Ack]) = 3 * length [Ack; Nack; Ack] /\
    (forall q, q <> "/tmp/ack1" -> fs w' !! q = fs session_started !! q) /\
    _ackFIFO w' = _ackFIFO session_started /\
    _dataFIFO w' = _dataFIFO session_started /\
    excepthook w' = excepthook session_started.
Proof.
  split; [reflexivity|]. split; [reflexivity|].
  apply (tokens_in_call_order pipes1 [Invoke (CallOnTraversalStart "/tmp/ack1")]
           [Ack; Nack; Ack] (opened_ack "/tmp/ack1")); reflexivity.
Defined.

(** ** Closing is silent *)

Lemma pipe_at_deliver_nothing path q (m : gmap string Pipe) :
  pipe_at (deliver path EmptyString m) q = pipe_at m q.
Proof.
  destruct (decide (q = path)) as [-> | Hq].
  - rewrite pipe_at_deliver_eq, append_empty_r.
    destruct (pipe_at m path); reflexivity.
  - unfold pipe_at. rewrite (lookup_deliver_ne _ _ _ _ Hq). reflexivity.
Qed.

(** X5. In a reachable state with the ack channel there and the host not
    gone from the ack pipe, [closeTool] returns, clears the global, and
    sends nothing: every pipe holds what it held before, the trace gains
    only the (empty) flush and the close of the ack file, and the data
    channel and the hook are untouched.  [closeDataFIFO] on an open data
    channel likewise returns and clears its global; it touches no other
    pipe, nor the ack channel, nor the hook. *)
Theorem close_sends_nothing :
  forall pipes acts,
    (forall ch,
       _ackFIFO (run acts (boot pipes)) = Some ch ->
       host_gone (ackFIFOName ch) (run acts (boot pipes)) = false ->
       exists w',
         closeTool (run acts (boot pipes)) = Return tt w' /\
         _ackFIFO w' = None /\
         (forall q, pipe_at (fs w') q = pipe_at (fs (run acts (boot pipes))) q) /\
         trace w' = trace (run acts (boot pipes))
                      ++ [EvFlush (ackFIFOName ch) EmptyString;
                          EvClose (ackFIFOName ch)] /\
         _dataFIFO w' = _dataFIFO (run acts (boot pipes)) /\
         excepthook w' = excepthook (run acts (boot pipes))) /\
    (forall ch,
       _dataFIFO (run acts (boot pipes)) = Some ch ->
       exists w',
         closeDataFIFO (run acts (boot pipes)) = Return tt w' /\
         _dataFIFO w' = None /\
         (forall q, q <> dataFIFOName ch ->
            fs w' !! q = fs (run acts (boot pipes)) !! q) /\
         trace w' = trace (run acts (boot pipes)) ++ [EvClose (dataFIFOName ch)] /\
         _ackFIFO w' = _ackFIFO (run acts (boot pipes)) /\
         excepthook w' = excepthook (run acts (boot pipes))).
Proof.
  intros pipes acts.
  pose proof (run_tidy acts _ (boot_tidy pipes)) as Ha.
  pose proof (run_tidy_data acts (boot pipes) I) as Hd.
  set (w := run acts (boot pipes)) in *. split.
  - intros ch Hg _. unfold tidy in Ha. rewrite Hg in Ha. destruct Ha as [p ->].
    exists (tool_closed {| w_path := p; w_pending := EmptyString |} w).
    split; [apply (closeTool_open w (opened_ack p)); [exact Hg | reflexivity]|].
    split; [reflexivity|].
    split; [intros q; simpl; apply pipe_at_deliver_nothing|].
    split; [simpl; rewrite <- app_assoc; reflexivity|].
    split; reflexivity.
  - intros ch Hg. unfold tidy_data in Hd. rewrite Hg in Hd. destruct Hd as [p ->].
    exists (data_closed {| r_path := p |} w).
    split; [apply (closeDataFIFO_open w (opened_data p)); [exact Hg | reflexivity]|].
    repeat split.
Qed.

Lemma close_sends_nothing_witness :
  (_ackFIFO (run [Invoke (CallOnTraversalStart "/tmp/ack1"); Invoke CallSendAck]
               (boot pipes1)) = Some (opened_ack "/tmp/ack1") /\
   host_gone (ackFIFOName (opened_ack "/tmp/ack1"))
     (run [Invoke (CallOnTraversalStart "/tmp/ack1"); Invoke CallSendAck]
        (boot pipes1)) = false /\
   exists w',
     closeTool (run [Invoke (CallOnTraversalStart "/tmp/ack1"); Invoke CallSendAck]
                  (boot pipes1)) = Return tt w' /\
     _ackFIFO w' = None /\
     (forall q, pipe_at (fs w') q =
                pipe_at (fs (run [Invoke (CallOnTraversalStart "/tmp/ack1");
                                  Invoke CallSendAck] (boot pipes1))) q) /\
     trace w' = trace (run [Invoke (CallOnTraversalStart "/tmp/ack1");
                            Invoke CallSendAck] (boot pipes1))
                  ++ [EvFlush "/tmp/ack1" EmptyString; EvClose "/tmp/ack1"] /\
     _dataFIFO w' = _dataFIFO (run [Invoke (CallOnTraversalStart "/tmp/ack1");
                                    Invoke CallSendAck] (boot pipes1)) /\
     excepthook w' = excepthook (run [Invoke (CallOnTraversalStart "/tmp/ack1");
                                      Invoke CallSendAck] (boot pipes1))) /\
  (_dataFIFO (run [Invoke (CallInitializeDataFIFO "/tmp/data1")] (boot pipes1)) =
     Some (opened_data "/tmp/data1") /\
   exists w',
     closeDataFIFO data_started = Return tt w' /\
     _dataFIFO w' = None /\
     (forall q, q <> "/tmp/data1" -> fs w' !! q = fs data_started !! q) /\
     trace w' = trace data_started ++ [EvClose "/tmp/data1"] /\
     _ackFIFO w' = _ackFIFO data_started /\
     excepthook w' = excepthook data_started).
Proof.
  split.
  - split; [reflexivity|]. split; [reflexivity|].
    apply (proj1 (close_sends_nothing pipes1
                    [Invoke (CallOnTraversalStart "/tmp/ack1"); Invoke CallSendAck])
             (opened_ack "/tmp/ack1")); reflexivity.
  - split; [reflexivity|].
    apply (proj2 (close_sends_nothing pipes1
                    [Invoke (CallInitializeDataFIFO "/tmp/data1")])
             (opened_data "/tmp/data1")). reflexivity.
Defined.

(** ** A closed channel object *)

(** X6. Once [close] has returned on an [AckFIFO] object, [writeAck],
    [writeNack] and a second [close] on that object all stop with an
    [AssertionError] and do nothing; the same holds for [readLine] and
    [close] on a [DataFIFO] object after its [close]. *)
Theorem closed_object_faults :
  (forall self w self' w',
     AckFIFO_close self w = Return self' w' ->
     fileWriter self' = None /\
     AckFIFO_writeAck self' w' = Raise AssertionError w' /\
     AckFIFO_writeNack self' w' = Raise AssertionError w' /\
     AckFIFO_close self' w' = Raise AssertionError w') /\
  (forall self w self' w',
     DataFIFO_close self w = Return self' w' ->
     fileReader self' = None /\
     DataFIFO_readLine self' w' = Raise AssertionError w' /\
     DataFIFO_close self' w' = Raise AssertionError w').
Proof.
  split.
  - intros [n [fw|]] w self' w' H; unfold AckFIFO_close, bind in H; simpl in H;
      [|discriminate H].
    injection H as <- <-. repeat split.
  - intros [n [fr|]] w self' w' H; unfold DataFIFO_close, bind in H; simpl in H;
      [|discriminate H].
    injection H as <- <-. repeat split.
Qed.

Lemma closed_object_faults_witness :
  (AckFIFO_close ackChannel1 (boot pipes1) = Return ackChannelClosed ack1_object_closed /\
   fileWriter ackChannelClosed = None /\
   AckFIFO_writeAck ackChannelClosed ack1_object_closed =
     Raise AssertionError ack1_object_closed /\
   AckFIFO_writeNack ackChannelClosed ack1_object_closed =
     Raise AssertionError ack1_object_closed /\
   AckFIFO_close ackChannelClosed ack1_object_closed =
     Raise AssertionError ack1_object_closed) /\
  (DataFIFO_close (opened_data "/tmp/data1") (boot pipes1) =
     Return dataChannelClosed (log (EvClose "/tmp/data1") (boot pipes1)) /\
   fileReader dataChannelClosed = None /\
   DataFIFO_readLine dataChannelClosed (log (EvClose "/tmp/data1") (boot pipes1)) =
     Raise AssertionError (log (EvClose "/tmp/data1") (boot pipes1)) /\
   DataFIFO_close dataChannelClosed (log (EvClose "/tmp/data1") (boot pipes1)) =
     Raise AssertionError (log (EvClose "/tmp/data1") (boot pipes1))).
Proof.
  destruct closed_object_faults as [Ha Hd].
  split.
  - assert (H : AckFIFO_close ackChannel1 (boot pipes1) =
                Return ackChannelClosed ack1_object_closed) by reflexivity.
    split; [exact H | exact (Ha _ _ _ _ H)].
  - assert (H : DataFIFO_close (opened_data "/tmp/data1") (boot pipes1) =
                Return dataChannelClosed (log (EvClose "/tmp/data1") (boot pipes1)))
      by reflexivity.
    split; [exact H | exact (Hd _ _ _ _ H)].
Defined.

(** ** The two channels do not touch each other *)

(** X7. The data functions ([initializeDataFIFO], [closeDataFIFO],
    [readDataFIFO]) never change the ack global or the hook, and the other
    functions never change the data global, whether they return, raise or
    wait; an uncaught exception changes neither the data global nor the
    hook. *)
Theorem channels_independent :
  forall c w,
    match c with
    | CallInitializeDataFIFO _ | CallCloseDataFIFO | CallReadDataFIFO =>
        _ackFIFO (final (run_call c w)) = _ackFIFO w /\
        excepthook (final (run_call c w)) = excepthook w
    | _ => _dataFIFO (final (run_call c w)) = _dataFIFO w
    end /\
    forall e v tb,
      _dataFIFO (final (uncaught e v tb w)) = _dataFIFO w /\
      excepthook (final (uncaught e v tb w)) = excepthook w.
Proof.
  intros c w. split.
  - destruct c; world_cases w; repeat split.
  - intros e v tb. split; [|apply uncaught_hook].
    unfold uncaught. destruct (excepthook w); simpl; [reflexivity|].
    clear. world_cases w; reflexivity.
Qed.

(** ** What a read returns *)

Lemma read_universal_shape eof s :
  forall line rest,
    read_universal eof s = Some (line, rest) ->
    is_plain_line line = true \/
    (eof = true /\ no_line_end line = true /\ rest = EmptyString).
Proof.
  induction s as [|c s IH]; intros line rest H; cbn [read_universal] in H.
  - destruct eof; [|discriminate H]. injection H as <- <-. right. auto.
  - destruct (Ascii.eqb c LF) eqn:Hlf.
    + injection H as <- <-. left. reflexivity.
    + destruct (Ascii.eqb c CR) eqn:Hcr.
      * destruct s as [|c' s'].
        -- destruct eof; [|discriminate H]. injection H as <- <-. left. reflexivity.
        -- destruct (Ascii.eqb c' LF); injection H as <- <-; left; reflexivity.
      * destruct (read_universal eof s) as [[l r]|]; [|discriminate H].
        injection H as <- <-.
        destruct (IH l r eq_refl) as [Hp | (He & Hn & Hr)].
        -- left. cbn [is_plain_line]. rewrite Hlf, Hcr. exact Hp.
        -- right. split; [exact He|]. split; [|exact Hr].
           cbn [no_line_end]. rewrite Hlf, Hcr. exact Hn.
Qed.

Lemma read_universal_empty eof s rest :
  read_universal eof s = Some (EmptyString, rest) ->
  eof = true /\ s = EmptyString /\ rest = EmptyString.
Proof.
  destruct s as [|c s]; cbn [read_universal]; intros H.
  - destruct eof; [|discriminate H]. injection H as <-. auto.
  - destruct (Ascii.eqb c LF); [discriminate H|].
    destruct (Ascii.eqb c CR).
    + destruct s as [|c' s']; [destruct eof; discriminate H|].
      destruct (Ascii.eqb c' LF); discriminate H.
    + destruct (read_universal eof s) as [[l r]|]; discriminate H.
Qed.

Lemma read_universal_conserves eof s :
  no_cr s = true ->
  forall line rest, read_universal eof s = Some (line, rest) -> s = line +:+ rest.
Proof.
  induction s as [|c s IH]; intros Hcr line rest H;
    cbn [read_universal] in H; cbn [no_cr] in Hcr.
  - destruct eof; [|discriminate H]. injection H as <- <-. reflexivity.
  - destruct (Ascii.eqb c CR); [discriminate Hcr|].
    destruct (Ascii.eqb c LF) eqn:Hlf.
    + apply Ascii.eqb_eq in Hlf. subst c. injection H as <- <-. reflexivity.
    + destruct (read_universal eof s) as [[l r]|]; [|discriminate H].
      injection H as <- <-. rewrite append_cons, <- (IH Hcr l r eq_refl). reflexivity.
Qed.

(** What a returning [readDataFIFO] did, read back from its result. *)
Lemma readDataFIFO_returns_inv w line w' :
  readDataFIFO w = Return line w' ->
  exists self fr rest,
    _dataFIFO w = Some self /\ fileReader self = Some fr /\
    read_universal (writerClosed (pipe_at (fs w) (r_path fr)))
                   (unread (pipe_at (fs w) (r_path fr))) = Some (line, rest) /\
    w' = line_read fr line rest w.
Proof.
  intros H. destruct (_dataFIFO w) as [self|] eqn:Hg.
  - rewrite (readDataFIFO_bound _ _ Hg) in H.
    destruct (fileReader self) as [fr|] eqn:Hfr.
    + rewrite (DataFIFO_readLine_open _ _ _ Hfr) in H.
      unfold TextReader_readline in H.
      destruct (read_universal _ _) as [[l r]|] eqn:Hscan; [|discriminate H].
      injection H as <- <-. exists self, fr, r. auto.
    + destruct self as [n o]. simpl in Hfr. subst o. discriminate H.
  - rewrite (readDataFIFO_absent _ Hg) in H. discriminate H.
Qed.

(** X8. Whatever [readDataFIFO] returns while the host still has its end
    open is one whole line: characters other than carriage return and
    newline, then one newline.  Only once the host has closed its end can
    the result lack the newline; it is then the unterminated remainder and
    nothing is left unread. *)
Theorem readDataFIFO_result_shape :
  forall w line w',
    readDataFIFO w = Return line w' ->
    exists self fr,
      _dataFIFO w = Some self /\ fileReader self = Some fr /\
      (is_plain_line line = true \/
       (writerClosed (pipe_at (fs w) (r_path fr)) = true /\
        no_line_end line = true /\
        unread (pipe_at (fs w') (r_path fr)) = EmptyString)).
Proof.
  intros w line w' H.
  destruct (readDataFIFO_returns_inv _ _ _ H) as (self & fr & rest & Hg & Hfr & Hscan & ->).
  exists self, fr. split; [exact Hg|]. split; [exact Hfr|].
  destruct (read_universal_shape _ _ _ _ Hscan) as [Hp | (He & Hn & ->)].
  - left. exact Hp.
  - right. split; [exact He|]. split; [exact Hn|].
    rewrite pipe_at_line_read. reflexivity.
Qed.

Lemma readDataFIFO_result_shape_witness :
  readDataFIFO data_line =
    Return ("A" +:+ nl) (line_read reader1 ("A" +:+ nl) EmptyString data_line) /\
  exists self fr,
    _dataFIFO data_line = Some self /\ fileReader self = Some fr /\
    (is_plain_line ("A" +:+ nl) = true \/
     (writerClosed (pipe_at (fs data_line) (r_path fr)) = true /\
      no_line_end ("A" +:+ nl) = true /\
      unread (pipe_at (fs (line_read reader1 ("A" +:+ nl) EmptyString data_line))
                (r_path fr)) = EmptyString)).
Proof.
  assert (H : readDataFIFO data_line =
              Return ("A" +:+ nl) (line_read reader1 ("A" +:+ nl) EmptyString data_line))
    by reflexivity.
  split; [exact H | exact (readDataFIFO_result_shape _ _ _ H)].
Defined.

(** X9. [readDataFIFO] returns the empty string only when the host has
    closed its end and nothing is unread; and once it has returned the
    empty string, the next call returns the empty string again. *)
Theorem readDataFIFO_empty_means_end :
  forall w w',
    readDataFIFO w = Return EmptyString w' ->
    exists self fr,
      _dataFIFO w = Some self /\ fileReader self = Some fr /\
      pipe_at (fs w) (r_path fr) = {| unread := EmptyString; writerClosed := true |} /\
      readDataFIFO w' = Return EmptyString (line_read fr EmptyString EmptyString w').
Proof.
  intros w w' H.
  destruct (readDataFIFO_returns_inv _ _ _ H) as (self & fr & rest & Hg & Hfr & Hscan & ->).
  destruct (read_universal_empty _ _ _ Hscan) as (He & Hs & ->).
  exists self, fr. split; [exact Hg|]. split; [exact Hfr|]. split.
  - destruct (pipe_at (fs w) (r_path fr)) as [u c]; simpl in *. subst. reflexivity.
  - rewrite (readDataFIFO_bound _ self), (DataFIFO_readLine_open _ _ _ Hfr);
      [|exact Hg].
    apply TextReader_readline_scan. rewrite pipe_at_line_read. simpl.
    rewrite He. reflexivity.
Qed.

Lemma readDataFIFO_empty_means_end_witness :
  readDataFIFO data_eof =
    Return EmptyString (line_read reader1 EmptyString EmptyString data_eof) /\
  exists self fr,
    _dataFIFO data_eof = Some self /\ fileReader self = Some fr /\
    pipe_at (fs data_eof) (r_path fr) = {| unread := EmptyString; writerClosed := true |} /\
    readDataFIFO (line_read reader1 EmptyString EmptyString data_eof) =
      Return EmptyString
        (line_read fr EmptyString EmptyString
           (line_read reader1 EmptyString EmptyString data_eof)).
Proof.
  assert (H : readDataFIFO data_eof =
              Return EmptyString (line_read reader1 EmptyString EmptyString data_eof))
    by reflexivity.
  split; [exact H | exact (readDataFIFO_empty_means_end _ _ H)].
Defined.

(** X10. A read takes exactly what it returns: when the unread text holds
    no carriage return, the text unread before the call is the returned
    line followed by the text unread after it.  Nothing is dropped,
    nothing is read twice, and what follows the line is left as it was;
    other pipes, the globals and the hook are untouched. *)
Theorem readDataFIFO_takes_what_it_returns :
  forall w self fr line w',
    _dataFIFO w = Some self ->
    fileReader self = Some fr ->
    no_cr (unread (pipe_at (fs w) (r_path fr))) = true ->
    readDataFIFO w = Return line w' ->
    unread (pipe_at (fs w) (r_path fr)) =
      line +:+ unread (pipe_at (fs w') (r_path fr)) /\
    writerClosed (pipe_at (fs w') (r_path fr)) =
      writerClosed (pipe_at (fs w) (r_path fr)) /\
    (forall q, q <> r_path fr -> fs w' !! q = fs w !! q) /\
    _dataFIFO w' = _dataFIFO w /\ _ackFIFO w' = _ackFIFO w /\
    excepthook w' = excepthook w.
Proof.
  intros w self fr line w' Hg Hfr Hcr H.
  destruct (readDataFIFO_returns_inv _ _ _ H)
    as (self' & fr' & rest & Hg' & Hfr' & Hscan & ->).
  rewrite Hg in Hg'. injection Hg' as <-.
  rewrite Hfr in Hfr'. injection Hfr' as <-.
  rewrite pipe_at_line_read. simpl.
  split; [apply (read_universal_conserves _ _ Hcr _ _ Hscan)|].
  split; [reflexivity|].
  split; [intros q Hq; apply lookup_insert_ne; congruence|].
  auto.
Qed.

Lemma readDataFIFO_takes_what_it_returns_witness :
  _dataFIFO data_tail = Some (opened_data "/tmp/data1") /\
  fileReader (opened_data "/tmp/data1") = Some reader1 /\
  no_cr (unread (pipe_at (fs data_tail) (r_path reader1))) = true /\
  readDataFIFO data_tail =
    Return ("A" +:+ nl) (line_read reader1 ("A" +:+ nl) "rest" data_tail) /\
  unread (pipe_at (fs data_tail) (r_path reader1)) =
    ("A" +:+ nl)
      +:+ unread (pipe_at (fs (line_read reader1 ("A" +:+ nl) "rest" data_tail))
                    (r_path reader1)) /\
  writerClosed (pipe_at (fs (line_read reader1 ("A" +:+ nl) "rest" data_tail))
                  (r_path reader1)) =
    writerClosed (pipe_at (fs data_tail) (r_path reader1)) /\
  (forall q, q <> r_path reader1 ->
     fs (line_read reader1 ("A" +:+ nl) "rest" data_tail) !! q = fs data_tail !! q) /\
  _dataFIFO (line_read reader1 ("A" +:+ nl) "rest" data_tail) = _dataFIFO data_tail /\
  _ackFIFO (line_read reader1 ("A" +:+ nl) "rest" data_tail) = _ackFIFO data_tail /\
  excepthook (line_read reader1 ("A" +:+ nl) "rest" data_tail) = excepthook data_tail.
Proof.
  split; [reflexivity|]. split; [reflexivity|]. split; [reflexivity|].
  split; [reflexivity|].
  apply (readDataFIFO_takes_what_it_returns data_tail (opened_data "/tmp/data1")
           reader1 ("A" +:+ nl)); reflexivity.
Defined.

(** ** What a whole session writes, and when the hook is there *)

Lemma tokens_only_app evs1 evs2 :
  tokens_only evs1 -> tokens_only evs2 -> tokens_only (evs1 ++ evs2).
Proof.
  intros H1 H2. induction H1; simpl.
  - exact H2.
  - apply tokens_token; assumption.
  - apply tokens_empty_flush; assumption.
  - apply tokens_quiet; assumption.
Qed.

(** In such a stretch every write carries a token and the flush of that
    token is the very next event. *)
Lemma tokens_only_write evs :
  tokens_only evs ->
  forall pre p t post,
    evs = pre ++ EvWrite p t :: post ->
    (t = _ackString \/ t = _nackString) /\
    exists post', post = EvFlush p t :: post'.
Proof.
  induction 1 as [| p0 t0 rest Htok Hrest IH | p0 rest Hrest IH | ev rest Hq Hrest IH];
    intros pre p t post Heq.
  - destruct pre; discriminate Heq.
  - destruct pre as [|e1 pre].
    + injection Heq as <- <- <-. split; [exact Htok | eauto].
    + injection Heq as _ Heq. destruct pre as [|e2 pre].
      * discriminate Heq.
      * injection Heq as _ Heq. exact (IH _ _ _ _ Heq).
  - destruct pre as [|e1 pre]; [discriminate Heq|].
    injection Heq as _ Heq. exact (IH _ _ _ _ Heq).
  - destruct pre as [|e1 pre].
    + injection Heq as -> _. destruct Hq.
    + injection Heq as _ Heq. exact (IH _ _ _ _ Heq).
Qed.

Lemma step_ok_still w w' :
  trace w' = trace w -> excepthook w' = excepthook w -> step_ok w w'.
Proof.
  intros Ht Hh. exists []. rewrite app_nil_r. split; [exact Ht|].
  split; [constructor|]. left. split; [exact Hh | reflexivity].
Qed.

Lemma step_ok_refl w : step_ok w w.
Proof. apply step_ok_still; reflexivity. Qed.

Lemma step_ok_trans w1 w2 w3 : step_ok w1 w2 -> step_ok w2 w3 -> step_ok w1 w3.
Proof.
  intros (e1 & Ht1 & Hk1 & Hh1) (e2 & Ht2 & Hk2 & Hh2).
  exists (e1 ++ e2). split; [rewrite Ht2, Ht1, app_assoc; reflexivity|].
  split; [apply tokens_only_app; assumption|].
  unfold ack_opened in *. rewrite existsb_app.
  destruct Hh1 as [[Hs1 Ho1] | [Hs1 Ho1]], Hh2 as [[Hs2 Ho2] | [Hs2 Ho2]];
    rewrite Ho1, Ho2; simpl.
  - left. split; [congruence | reflexivity].
  - right. split; [exact Hs2 | reflexivity].
  - right. split; [congruence | reflexivity].
  - right. split; [exact Hs2 | reflexivity].
Qed.

Ltac solve_tokens :=
  repeat first
    [ apply tokens_nil
    | apply tokens_token; [first [left; reflexivity | right; reflexivity]|]
    | apply tokens_empty_flush
    | apply tokens_quiet; [exact I|] ].

Ltac solve_step :=
  unfold step_ok; cbn;
  first
    [ exists []; rewrite app_nil_r; split; [reflexivity|];
      split; [solve_tokens|]; left; split; reflexivity
    | rewrite <- ?app_assoc; eexists; split; [reflexivity|];
      split; [simpl; solve_tokens|];
      first [left; split; reflexivity | right; split; reflexivity] ].

Lemma run_call_step c w :
  tidy w -> tidy_data w -> step_ok w (final (run_call c w)).
Proof.
  intros Ha Hd. unfold step_ok.
  destruct c; neat_cases w Ha Hd; solve_step.
Qed.

Lemma uncaught_step e v tb w :
  tidy w -> tidy_data w -> step_ok w (final (uncaught e v tb w)).
Proof.
  intros Ha Hd. unfold uncaught. destruct (excepthook w) eqn:Hh; simpl.
  - exists [EvDefaultExcepthook e v tb]. split; [reflexivity|].
    split; [solve_tokens|]. left. split; reflexivity.
  - exact (run_call_step (CallGatkExceptionHook e v tb) w Ha Hd).
Qed.

Lemma do_action_step a w :
  tidy w -> tidy_data w -> step_ok w (do_action a w).
Proof.
  intros Ha Hd. destruct a as [c | e v tb | path text | path]; simpl.
  - unfold toplevel.
    pose proof (run_call_step c w Ha Hd) as Hs.
    pose proof (run_call_tidy c w Ha) as Ha'.
    pose proof (run_call_tidy_data c w Hd) as Hd'.
    destruct (run_call c w) as [u w' | e w' | w']; simpl in *; try exact Hs.
    apply (step_ok_trans _ w'); [exact Hs | apply uncaught_step; assumption].
  - apply uncaught_step; assumption.
  - unfold host_write. destruct (writerClosed _); apply step_ok_still; reflexivity.
  - apply step_ok_still; reflexivity.
Qed.

Lemma run_step acts :
  forall w, tidy w -> tidy_data w -> step_ok w (run acts w).
Proof.
  induction acts as [|a acts IH]; intros w Ha Hd; simpl.
  - apply step_ok_refl.
  - apply (step_ok_trans _ (do_action a w)).
    + apply do_action_step; assumption.
    + apply IH; [apply do_action_tidy | apply do_action_tidy_data]; assumption.
Qed.

(** X11. In no session does the module write anything but the two
    tokens: every write recorded in the trace, whichever function or
    handler made it, carries ["ack"] or ["nck"], and the very next event is
    the flush of exactly that token on the same file. *)
Theorem session_writes_tokens_only :
  forall pipes acts pre p t post,
    trace (run acts (boot pipes)) = pre ++ EvWrite p t :: post ->
    (t = "ack" \/ t = "nck") /\
    exists post', post = EvFlush p t :: post'.
Proof.
  intros pipes acts pre p t post Heq.
  destruct (run_step acts (boot pipes) (boot_tidy pipes) I) as (evs & Htr & Hk & _).
  simpl in Htr. rewrite Htr in Heq.
  exact (tokens_only_write evs Hk pre p t post Heq).
Qed.

Lemma session_writes_tokens_only_witness :
  trace (run [Invoke (CallOnTraversalStart "/tmp/ack1"); Invoke CallSendAck;
              Throw (Exception "ValueError") "boom" []] (boot pipes1)) =
    [EvOpen "/tmp/ack1" O_WRONLY; EvSetExcepthook HookGatk;
     EvWrite "/tmp/ack1" "ack"; EvFlush "/tmp/ack1" "ack"]
      ++ EvWrite "/tmp/ack1" "nck"
           :: [EvFlush "/tmp/ack1" "nck";
               EvDefaultExcepthook (Exception "ValueError") "boom" []] /\
  ("nck" = "ack" \/ "nck" = "nck") /\
  exists post',
    [EvFlush "/tmp/ack1" "nck"; EvDefaultExcepthook (Exception "ValueError") "boom" []] =
      EvFlush "/tmp/ack1" "nck" :: post'.
Proof.
  assert (H : trace (run [Invoke (CallOnTraversalStart "/tmp/ack1"); Invoke CallSendAck;
                          Throw (Exception "ValueError") "boom" []] (boot pipes1)) =
              [EvOpen "/tmp/ack1" O_WRONLY; EvSetExcepthook HookGatk;
               EvWrite "/tmp/ack1" "ack"; EvFlush "/tmp/ack1" "ack"]
                ++ EvWrite "/tmp/ack1" "nck"
                     :: [EvFlush "/tmp/ack1" "nck";
                         EvDefaultExcepthook (Exception "ValueError") "boom" []])
    by reflexivity.
  split; [exact H|].
  exact (session_writes_tokens_only pipes1 _ _ _ _ _ H).
Defined.

(** X12. In every session, [gatkExceptionHook] is the installed hook
    exactly when some ack pipe has been opened for writing, that is, when
    some [onTraversalStart] has succeeded: the hook is never there before
    the first successful session start, and always there after it. *)
Theorem hook_installed_iff_started :
  forall pipes acts,
    excepthook (run acts (boot pipes)) = HookGatk <->
    exists path, In (EvOpen path O_WRONLY) (trace (run acts (boot pipes))).
Proof.
  intros pipes acts.
  destruct (run_step acts (boot pipes) (boot_tidy pipes) I) as (evs & Htr & _ & Hh).
  simpl in Htr, Hh. rewrite Htr.
  assert (Hiff : ack_opened evs = true <-> exists path, In (EvOpen path O_WRONLY) evs).
  { unfold ack_opened. rewrite existsb_exists. split.
    - intros (ev & Hin & Hev). destruct ev as [path [|] | | | | | |]; try discriminate Hev.
      exists path. exact Hin.
    - intros (path & Hin). exists (EvOpen path O_WRONLY). split; [exact Hin | reflexivity]. }
  destruct Hh as [[Hs Ho] | [Hs Ho]].
  - split.
    + intros H. rewrite H in Hs. discriminate Hs.
    + intros H. apply Hiff in H. rewrite H in Ho. discriminate Ho.
  - split; [intros _; apply Hiff, Ho | intros _; exact Hs].
Qed.

Lemma hook_installed_iff_started_witness :
  (excepthook (run [Invoke (CallOnTraversalStart "/tmp/ack1"); Invoke CallCloseTool]
                 (boot pipes1)) = HookGatk /\
   exists path,
     In (EvOpen path O_WRONLY)
        (trace (run [Invoke (CallOnTraversalStart "/tmp/ack1"); Invoke CallCloseTool]
                  (boot pipes1)))) /\
  ((exists path,
      In (EvOpen path O_WRONLY)
         (trace (run [Invoke (CallOnTraversalStart "/tmp/ack1")] (boot pipes1)))) /\
   excepthook (run [Invoke (CallOnTraversalStart "/tmp/ack1")] (boot pipes1)) = HookGatk).
Proof.
  split.
  - split; [reflexivity|].
    apply (proj1 (hook_installed_iff_started pipes1
                    [Invoke (CallOnTraversalStart "/tmp/ack1"); Invoke CallCloseTool])).
    reflexivity.
  - assert (H : exists path,
               In (EvOpen path O_WRONLY)
                  (trace (run [Invoke (CallOnTraversalStart "/tmp/ack1")] (boot pipes1))))
      by (exists "/tmp/ack1"; left; reflexivity).
    split; [exact H|].
    exact (proj2 (hook_installed_iff_started pipes1
                    [Invoke (CallOnTraversalStart "/tmp/ack1")]) H).
Defined.

(** ** When a read waits *)

Lemma read_universal_closed s :
  exists line rest, read_universal true s = Some (line, rest).
Proof.
  induction s as [|c s IH]; cbn [read_universal].
  - eauto.
  - destruct (Ascii.eqb c LF); [eauto|].
    destruct (Ascii.eqb c CR).
    + destruct s as [|c' s']; [eauto|]. destruct (Ascii.eqb c' LF); eauto.
    + destruct IH as (l & r & ->). eauto.
Qed.

Lemma read_universal_waits_inv eof s :
  read_universal eof s = None -> eof = false /\ no_lf s = true.
Proof.
  induction s as [|c s IH]; cbn [read_universal no_lf]; intros H.
  - destruct eof; [discriminate H | auto].
  - destruct (Ascii.eqb c LF); [discriminate H|].
    destruct (Ascii.eqb c CR).
    + destruct s as [|c' s'].
      * destruct eof; [discriminate H | auto].
      * destruct (Ascii.eqb c' LF); discriminate H.
    + destruct (read_universal eof s) as [[l r]|]; [discriminate H|].
      apply IH. reflexivity.
Qed.

(** X13. [readDataFIFO] waits only while the host's end is open and the
    unread text holds no newline; once the host has closed its end, a call
    on an open data channel always returns. *)
Theorem readDataFIFO_waits_only_for_host :
  (forall w w',
     readDataFIFO w = Blocked w' ->
     exists self fr,
       _dataFIFO w = Some self /\ fileReader self = Some fr /\
       writerClosed (pipe_at (fs w) (r_path fr)) = false /\
       no_lf (unread (pipe_at (fs w) (r_path fr))) = true) /\
  (forall w self fr,
     _dataFIFO w = Some self ->
     fileReader self = Some fr ->
     writerClosed (pipe_at (fs w) (r_path fr)) = true ->
     exists line w', readDataFIFO w = Return line w').
Proof.
  split.
  - intros w w' H. destruct (_dataFIFO w) as [self|] eqn:Hg.
    + rewrite (readDataFIFO_bound _ _ Hg) in H.
      destruct (fileReader self) as [fr|] eqn:Hfr.
      * rewrite (DataFIFO_readLine_open _ _ _ Hfr) in H.
        unfold TextReader_readline in H.
        destruct (read_universal _ _) as [[l r]|] eqn:Hscan; [discriminate H|].
        exists self, fr. split; [reflexivity|]. split; [exact Hfr|].
        exact (read_universal_waits_inv _ _ Hscan).
      * destruct self as [n o]. simpl in Hfr. subst o. discriminate H.
    + rewrite (readDataFIFO_absent _ Hg) in H. discriminate H.
  - intros w self fr Hg Hfr Hclosed.
    destruct (read_universal_closed (unread (pipe_at (fs w) (r_path fr))))
      as (line & rest & Hscan).
    exists line, (line_read fr line rest w).
    rewrite (readDataFIFO_bound _ _ Hg), (DataFIFO_readLine_open _ _ _ Hfr).
    apply TextReader_readline_scan. rewrite Hclosed. exact Hscan.
Qed.

Lemma readDataFIFO_waits_only_for_host_witness :
  (readDataFIFO data_started = Blocked data_started /\
   exists self fr,
     _dataFIFO data_started = Some self /\ fileReader self = Some fr /\
     writerClosed (pipe_at (fs data_started) (r_path fr)) = false /\
     no_lf (unread (pipe_at (fs data_started) (r_path fr))) = true) /\
  (_dataFIFO data_tail = Some (opened_data "/tmp/data1") /\
   fileReader (opened_data "/tmp/data1") = Some reader1 /\
   writerClosed (pipe_at (fs data_tail) (r_path reader1)) = true /\
   exists line w', readDataFIFO data_tail = Return line w').
Proof.
  destruct readDataFIFO_waits_only_for_host as [Hb Hr].
  split.
  - assert (H : readDataFIFO data_started = Blocked data_started) by reflexivity.
    split; [exact H | exact (Hb _ _ H)].
  - split; [reflexivity|]. split; [reflexivity|]. split; [reflexivity|].
    apply (Hr data_tail (opened_data "/tmp/data1") reader1); reflexivity.
Defined.
